(** * Verification of the research-paper pipeline core

    Shallow embedding of:
    - [scripts/biomarker_aggregator.py]: [BiomarkerAggregator]
      (name normalisation, [add_paper_results], [get_summary],
      [get_biomarker_details], [find_high_confidence_associations]);
    - [scripts/langchain_pipeline.py]: [_validate_extraction], [_validate_year];
    - [scripts/process_papers.py]: the tenacity retry policy wrapped around
      [process_single_paper], [save_results_to_csv] and the biomarker total
      of [track_metrics];
    - [scripts/summarize.py]: [chunk_text] and the response clean-up of the
      two summarisers;
    - [scripts/extract_text.py]: the text assembled by [extract_text_from_pdf].

    Modelling conventions.
    - Python [str] values are Rocq [string]s over ASCII; the character classes
      of Python's regular expressions and of [str.upper]/[str.lower] are
      written out for ASCII.
    - A Python [dict] (insertion ordered) is an association list; assignment to
      an existing key replaces its value in place, a new key is appended.
      A [defaultdict] lookup inserts the default value when the key is missing.
    - A Python [set] of strings is a duplicate-free list; its iteration order
      (hash based in Python) is not modelled.
    - Python floats computed by [a / b] are modelled by exact rationals [Q];
      JSON numbers read as floats are not part of the value model. *)

From Stdlib Require Import String Ascii Bool List Arith Lia ZArith QArith Qminmax.
From Stdlib Require Import Permutation Sorting.Sorted.
Import ListNotations.
Open Scope nat_scope.
Open Scope string_scope.
Open Scope list_scope.

(* ------------------------------------------------------------------ *)
(** ** Characters and strings *)

(** Characters matched by the character class [[-_\s]] of a [str] pattern
    (ASCII part of [\s]: tab, line feed, vertical tab, form feed, carriage
    return, the separators 0x1c-0x1f and space). *)
Definition is_sep (c : ascii) : bool :=
  let n := nat_of_ascii c in
  Ascii.eqb c "-"%char || Ascii.eqb c "_"%char
  || ((Nat.leb 9 n) && (Nat.leb n 13)) || ((Nat.leb 28 n) && (Nat.leb n 32)).

(** [str.upper] and [str.lower] on one ASCII character. *)
Definition upper_char (c : ascii) : ascii :=
  let n := nat_of_ascii c in
  if (Nat.leb 97 n) && (Nat.leb n 122) then ascii_of_nat (n - 32) else c.

Definition lower_char (c : ascii) : ascii :=
  let n := nat_of_ascii c in
  if (Nat.leb 65 n) && (Nat.leb n 90) then ascii_of_nat (n + 32) else c.

Fixpoint str_map (f : ascii -> ascii) (s : string) : string :=
  match s with
  | EmptyString => EmptyString
  | String c r => String (f c) (str_map f r)
  end.

Definition upper (s : string) : string := str_map upper_char s.
Definition lower (s : string) : string := str_map lower_char s.

(** [re.sub(r'[-_\s]', '', s)] *)
Fixpoint remove_separators (s : string) : string :=
  match s with
  | EmptyString => EmptyString
  | String c r => if is_sep c then remove_separators r
                  else String c (remove_separators r)
  end.

(** Matching a literal prefix at the start of a string; [Some rest] on a
    match. *)
Fixpoint strip_prefix (p s : string) : option string :=
  match p, s with
  | EmptyString, _ => Some s
  | String a p', String b s' =>
      if Ascii.eqb a b then strip_prefix p' s' else None
  | String _ _, EmptyString => None
  end.

(** [re.sub(r'^(GENE|PROTEIN|BIOMARKER):', '', s)]: the anchor [^] matches
    only at the start of the string, so at most one prefix is removed. *)
Definition strip_type_prefix (s : string) : string :=
  match strip_prefix "GENE:" s with
  | Some r => r
  | None =>
    match strip_prefix "PROTEIN:" s with
    | Some r => r
    | None =>
      match strip_prefix "BIOMARKER:" s with
      | Some r => r
      | None => s
      end
    end
  end.

(** Does the pattern [^(GENE|PROTEIN|BIOMARKER):] match? *)
Definition has_type_prefix (s : string) : bool :=
  match strip_prefix "GENE:" s, strip_prefix "PROTEIN:" s,
        strip_prefix "BIOMARKER:" s with
  | None, None, None => false
  | _, _, _ => true
  end.

(** [BiomarkerAggregator.normalize_biomarker_name] *)
Definition normalize_biomarker_name (name : string) : string :=
  match name with
  | EmptyString => EmptyString
  | _ =>
    let normalized := upper (remove_separators name) in
    strip_type_prefix normalized
  end.

(* ------------------------------------------------------------------ *)
(** ** Normaliser: auxiliary predicates *)

Fixpoint all_chars (f : ascii -> bool) (s : string) : bool :=
  match s with
  | EmptyString => true
  | String c r => f c && all_chars f r
  end.

Definition is_upper_fixed (c : ascii) : bool := Ascii.eqb (upper_char c) c.

(* ------------------------------------------------------------------ *)
(** ** Python dictionaries, defaultdicts and sets *)

Section Dict.
Context {V : Type}.

(** [d.get(k)] / [k in d] *)
Fixpoint lookup (k : string) (m : list (string * V)) : option V :=
  match m with
  | [] => None
  | (k', v) :: m' => if String.eqb k' k then Some v else lookup k m'
  end.

(** [d[k] = v]: an existing key keeps its position, a new key goes last. *)
Definition set_item (k : string) (v : V) (m : list (string * V))
  : list (string * V) :=
  match lookup k m with
  | Some _ => map (fun kv => if String.eqb (fst kv) k then (k, v) else kv) m
  | None => m ++ [(k, v)]
  end.

(** [d[k]] on a [defaultdict] whose factory yields [dflt]: a missing key is
    inserted with the default value. *)
Definition dd_getitem (dflt : V) (k : string) (m : list (string * V))
  : list (string * V) * V :=
  match lookup k m with
  | Some v => (m, v)
  | None => (m ++ [(k, dflt)], dflt)
  end.
End Dict.

(** [s.add(x)] on a set of strings. *)
Definition set_add (x : string) (s : list string) : list string :=
  if existsb (String.eqb x) s then s else s ++ [x].

(* ------------------------------------------------------------------ *)
(** ** [BiomarkerAggregator]: state *)

(** [{'papers': set(), 'association_types': set(), 'evidence_levels': set()}] *)
Record disease_data := {
  papers : list string;
  association_types : list string;
  evidence_levels : list string
}.

Definition default_disease_data : disease_data :=
  {| papers := []; association_types := []; evidence_levels := [] |}.

(** The value type of [self.biomarkers]; timestamps are ISO strings. *)
Record bio_data := {
  normalized_name : string;
  variants : list string;
  diseases : list (string * disease_data);
  total_mentions : nat;
  first_seen : option string;
  last_seen : option string
}.

Definition default_bio_data : bio_data :=
  {| normalized_name := ""; variants := []; diseases := [];
     total_mentions := 0; first_seen := None; last_seen := None |}.

(** [self.biomarkers], a [defaultdict] keyed by normalised name. *)
Definition aggregator := list (string * bio_data).

Definition empty_aggregator : aggregator := [].

(** One element of [paper_result['biomarkers']]: a dict with the keys of
    [BiomarkerAssociation] (each possibly missing), or a non-dict value. *)
Record biomarker_item := {
  b_name : option string;
  b_diseases : option (list string);
  b_association_type : option string;
  b_evidence_level : option string
}.

Inductive biomarker_entry :=
| BDict (b : biomarker_item)
| BOther.

(** The keys of a paper result read by [add_paper_results]; [None] is a
    missing key. *)
Record paper_result := {
  pr_filename : option string;
  pr_title : option string;
  pr_biomarkers : option (list biomarker_entry)
}.

Definition get_or {A} (o : option A) (d : A) : A :=
  match o with Some x => x | None => d end.

(* ------------------------------------------------------------------ *)
(** ** [add_paper_results] *)

(** Body of [for disease in diseases:] *)
Definition add_disease (filename assoc_type evidence : string)
    (dm : list (string * disease_data)) (disease : string)
    : list (string * disease_data) :=
  if String.eqb disease "" then dm else
  let '(dm1, dd) := dd_getitem default_disease_data (lower disease) dm in
  let dd' := {| papers := set_add filename (papers dd);
                association_types := set_add assoc_type (association_types dd);
                evidence_levels := set_add evidence (evidence_levels dd) |} in
  set_item (lower disease) dd' dm1.

(** Body of [for biomarker in biomarkers_data:] *)
Definition add_biomarker (filename timestamp : string) (s : aggregator)
    (biomarker : biomarker_entry) : aggregator :=
  match biomarker with
  | BOther => s
  | BDict b =>
    let raw_name := get_or (b_name b) "" in
    let diseases_ := get_or (b_diseases b) [] in
    let assoc_type := get_or (b_association_type b) "unknown" in
    let evidence := get_or (b_evidence_level b) "unknown" in
    if String.eqb raw_name "" then s else
    let normalized := normalize_biomarker_name raw_name in
    let '(s1, bd) := dd_getitem default_bio_data normalized s in
    let bd' :=
      {| normalized_name := normalized;
         variants := set_add raw_name (variants bd);
         total_mentions := S (total_mentions bd);
         first_seen := match first_seen bd with
                       | None => Some timestamp
                       | Some t => Some t
                       end;
         last_seen := Some timestamp;
         diseases := fold_left (add_disease filename assoc_type evidence)
                       diseases_ (diseases bd) |} in
    set_item normalized bd' s1
  end.

(** [add_paper_results]; [timestamp] is the value of
    [datetime.now().isoformat()] taken once per call. *)
Definition add_paper_results (timestamp : string) (s : aggregator)
    (paper_result : paper_result) : aggregator :=
  let filename := get_or (pr_filename paper_result) "unknown" in
  let biomarkers_data := get_or (pr_biomarkers paper_result) [] in
  match biomarkers_data with
  | [] => s
  | _ => fold_left (add_biomarker filename timestamp) biomarkers_data s
  end.

(** A run: successive [add_paper_results] calls on a fresh aggregator, each
    with its own timestamp. *)
Definition run (calls : list (string * paper_result)) : aggregator :=
  fold_left (fun s c => add_paper_results (fst c) s (snd c)) calls
    empty_aggregator.

(* ------------------------------------------------------------------ *)
(** ** [sorted(..., key=..., reverse=True)]

    Python's sort is stable, also with [reverse=True]: items with equal keys
    keep their original order.  Modelled by an insertion sort that inserts
    each item after every item whose key is at least its own. *)

Section SortDesc.
Context {A : Type} (key : A -> nat).

Fixpoint insert_desc (x : A) (l : list A) : list A :=
  match l with
  | [] => [x]
  | y :: l' => if Nat.leb (key x) (key y) then y :: insert_desc x l' else x :: l
  end.

Definition sort_desc (l : list A) : list A :=
  fold_left (fun acc x => insert_desc x acc) l [].
End SortDesc.

(* ------------------------------------------------------------------ *)
(** ** [get_summary] *)

(** The dicts [{'name': ..., 'mentions': ...}] and
    [{'disease': ..., 'association_count': ...}] are pairs. *)
Record summary := {
  total_unique_biomarkers : nat;
  total_biomarker_disease_associations : nat;
  top_biomarkers : list (string * nat);
  top_diseases : list (string * nat)
}.

(** [all_diseases[disease] += len(bio_data['diseases'][disease]['papers'])]
    for one disease key. *)
Definition count_disease (bd : bio_data) (acc : list (string * nat))
    (disease : string) : list (string * nat) :=
  let '(acc1, v) := dd_getitem 0 disease acc in
  let dd := snd (dd_getitem default_disease_data disease (diseases bd)) in
  set_item disease (v + length (papers dd)) acc1.

(** The [all_diseases] defaultdict built by [get_summary]. *)
Definition all_diseases (s : aggregator) : list (string * nat) :=
  fold_left (fun acc nb =>
               fold_left (count_disease (snd nb)) (map fst (diseases (snd nb))) acc)
    s [].

Definition get_summary (s : aggregator) : summary :=
  {| total_unique_biomarkers := length s;
     total_biomarker_disease_associations :=
       list_sum (map (fun nb => length (diseases (snd nb))) s);
     top_biomarkers :=
       firstn 10 (sort_desc snd
                    (map (fun nb => (fst nb, total_mentions (snd nb))) s));
     top_diseases := firstn 10 (sort_desc snd (all_diseases s)) |}.

(* ------------------------------------------------------------------ *)
(** ** [get_biomarker_details] *)

Record disease_detail := {
  dt_disease : string;
  dt_paper_count : nat;
  dt_papers : list string;
  dt_association_types : list string;
  dt_evidence_levels : list string
}.

Record details := {
  dt_normalized_name : string;
  dt_name_variants : list string;
  dt_total_mentions : nat;
  dt_disease_associations : list disease_detail;
  dt_first_seen : option string;
  dt_last_seen : option string
}.

Definition to_details (bd : bio_data) : details :=
  {| dt_normalized_name := normalized_name bd;
     dt_name_variants := variants bd;
     dt_total_mentions := total_mentions bd;
     dt_disease_associations :=
       map (fun dd => {| dt_disease := fst dd;
                         dt_paper_count := length (papers (snd dd));
                         dt_papers := papers (snd dd);
                         dt_association_types := association_types (snd dd);
                         dt_evidence_levels := evidence_levels (snd dd) |})
           (diseases bd);
     dt_first_seen := first_seen bd;
     dt_last_seen := last_seen bd |}.

(** Returns the aggregator after the call together with the result; [None]
    is Python's [None]. *)
Definition get_biomarker_details (s : aggregator) (biomarker_name : string)
    : aggregator * option details :=
  let normalized := normalize_biomarker_name biomarker_name in
  match lookup normalized s with
  | None => (s, None)
  | Some _ =>
    let '(s1, bd) := dd_getitem default_bio_data normalized s in
    (s1, Some (to_details bd))
  end.

(* ------------------------------------------------------------------ *)
(** ** [find_high_confidence_associations] *)

Record hc_entry := {
  hc_biomarker : string;
  hc_disease : string;
  hc_paper_count : nat;
  hc_association_types : list string;
  hc_evidence_levels : list string;
  hc_confidence_score : Q
}.

(** [min(paper_count / 10.0, 1.0)]; [min(a, b)] returns [a] unless [b < a]. *)
Definition confidence_score (paper_count : nat) : Q :=
  let a := (inject_Z (Z.of_nat paper_count) / 10)%Q in
  if Qle_bool a 1 then a else 1%Q.

Definition hc_of (bd : bio_data) (dd : string * disease_data) : hc_entry :=
  {| hc_biomarker := normalized_name bd;
     hc_disease := fst dd;
     hc_paper_count := length (papers (snd dd));
     hc_association_types := association_types (snd dd);
     hc_evidence_levels := evidence_levels (snd dd);
     hc_confidence_score := confidence_score (length (papers (snd dd))) |}.

Definition collect_high_confidence (min_papers : Z) (s : aggregator)
    : list hc_entry :=
  fold_left (fun acc nb =>
               fold_left (fun acc2 dd =>
                            if Z.leb min_papers (Z.of_nat (length (papers (snd dd))))
                            then acc2 ++ [hc_of (snd nb) dd] else acc2)
                 (diseases (snd nb)) acc)
    s [].

Definition find_high_confidence_associations (s : aggregator)
    (min_papers : Z) : list hc_entry :=
  sort_desc hc_paper_count (collect_high_confidence min_papers s).

Definition item (name : string) (ds : list string) (ty ev : string)
  : biomarker_entry :=
  BDict {| b_name := Some name; b_diseases := Some ds;
           b_association_type := Some ty; b_evidence_level := Some ev |}.

Definition paper (f : string) (bs : list biomarker_entry) : paper_result :=
  {| pr_filename := Some f; pr_title := None; pr_biomarkers := Some bs |}.

(* ------------------------------------------------------------------ *)
(** ** Aggregator: observations *)

(** Contributing documents of a condition key in one entity's disease map
    ([[]] when the key is absent). *)
Definition dpapers (dm : list (string * disease_data)) (d : string)
  : list string :=
  match lookup d dm with Some dd => papers dd | None => [] end.

(** Contributing documents of the pair (entity key [k], condition key [d]). *)
Definition papers_of (s : aggregator) (k d : string) : list string :=
  match lookup k s with Some bd => dpapers (diseases bd) d | None => [] end.

Definition mentions_of (s : aggregator) (k : string) : nat :=
  match lookup k s with Some bd => total_mentions bd | None => 0 end.

(** The document identifier [add_paper_results] records for a result. *)
Definition doc_id (pr : paper_result) : string :=
  get_or (pr_filename pr) "unknown".

Definition disease_hits (d : string) (x : string) : bool :=
  negb (String.eqb x "") && String.eqb (lower x) d.

(** Does a biomarker entry name entity [k] (with a non-empty raw name)? *)
Definition item_names (b : biomarker_entry) (k : string) : bool :=
  match b with
  | BOther => false
  | BDict bi =>
    let raw := get_or (b_name bi) "" in
    negb (String.eqb raw "") && String.eqb (normalize_biomarker_name raw) k
  end.

(** Does a biomarker entry link entity [k] to condition key [d]? *)
Definition item_touches (b : biomarker_entry) (k d : string) : bool :=
  match b with
  | BOther => false
  | BDict bi =>
    item_names b k && existsb (disease_hits d) (get_or (b_diseases bi) [])
  end.

Definition touches (pr : paper_result) (k d : string) : bool :=
  existsb (fun b => item_touches b k d) (get_or (pr_biomarkers pr) []).

(** Number of occurrences of entity [k] in one paper result. *)
Definition occurrences (pr : paper_result) (k : string) : nat :=
  list_sum (map (fun b => if item_names b k then 1 else 0)
              (get_or (pr_biomarkers pr) [])).

Definition step (s : aggregator) (c : string * paper_result) : aggregator :=
  add_paper_results (fst c) s (snd c).

(* ------------------------------------------------------------------ *)
(** ** Aggregator: structural invariant of reachable states *)

Definition wf_diseases (dm : list (string * disease_data)) : Prop :=
  NoDup (map fst dm) /\ forall d dd, In (d, dd) dm -> NoDup (papers dd).

Definition wf (s : aggregator) : Prop :=
  forall k bd, In (k, bd) s -> normalized_name bd = k /\ wf_diseases (diseases bd).

(* ------------------------------------------------------------------ *)
(** ** Orders used to state the sorting properties *)

Section SortDefs.
Context {A : Type} (key : A -> nat).

Definition desc (a b : A) : Prop := key b <= key a.

Definition with_key (c : nat) (a : A) : bool := Nat.eqb (key a) c.
End SortDefs.

(** The spec's formula [min(documentCount / 10.0, 1.0)] with [Qmin]. *)
Definition spec_confidence (document_count : nat) : Q :=
  Qmin (inject_Z (Z.of_nat document_count) / 10) 1.

(** The entry the spec expects for the pair (entity [k], condition [d]). *)
Definition expected_entry (k d : string) (dd : disease_data) : hc_entry :=
  {| hc_biomarker := k;
     hc_disease := d;
     hc_paper_count := length (papers dd);
     hc_association_types := association_types dd;
     hc_evidence_levels := evidence_levels dd;
     hc_confidence_score := spec_confidence (length (papers dd)) |}.

(* ------------------------------------------------------------------ *)
(** ** [get_summary]: the [all_diseases] table *)

(** Conditions in the order [get_summary] meets them: entities in insertion
    order, and each entity's conditions in insertion order. *)
Definition scan (s : aggregator) : list string :=
  flat_map (fun nb => map fst (diseases (snd nb))) s.

(** Distinct elements in order of first occurrence. *)
Definition first_occurrences (l : list string) : list string :=
  fold_left (fun acc x => set_add x acc) l [].

(** Sum over entities of the number of documents linking the entity to [d]. *)
Definition condition_total (s : aggregator) (d : string) : nat :=
  list_sum (map (fun nb => length (dpapers (diseases (snd nb)) d)) s).

Definition condition_ranking (s : aggregator) : list (string * nat) :=
  map (fun d => (d, condition_total s d)) (first_occurrences (scan s)).

(** [all_diseases[k] += n] *)
Definition dd_add (acc : list (string * nat)) (p : string * nat)
  : list (string * nat) :=
  let '(acc1, v) := dd_getitem 0 (fst p) acc in set_item (fst p) (v + snd p) acc1.

Definition disease_counts (bd : bio_data) : list (string * nat) :=
  map (fun d => (d, length (papers (snd (dd_getitem default_disease_data d
                                                      (diseases bd))))))
    (map fst (diseases bd)).

Definition psum (ps : list (string * nat)) (d : string) : nat :=
  list_sum (map (fun p => if String.eqb (fst p) d then snd p else 0) ps).

(* ------------------------------------------------------------------ *)
(** ** Python values and exceptions (for the quality validator) *)

(** JSON-like Python values as they appear in an extraction dict.  JSON
    numbers with a fraction or exponent (Python floats) are not modelled. *)
#[warnings="-register-all"]
Inductive pyval :=
| PNone
| PBool (b : bool)
| PInt (z : Z)
| PStr (s : string)
| PList (l : list pyval)
| PDict (d : list (string * pyval)).

Inductive py_exc := TypeError | ValueError | OverflowError.

Inductive outcome (A : Type) :=
| Ok (a : A)
| Raise (e : py_exc).
Arguments Ok {A} a.
Arguments Raise {A} e.

Definition bind {A B} (m : outcome A) (k : A -> outcome B) : outcome B :=
  match m with Ok a => k a | Raise e => Raise e end.

Notation "x <- m ;; k" := (bind m (fun x => k))
  (at level 61, m at next level, right associativity).

(** [bool(v)] *)
Definition truthy (v : pyval) : bool :=
  match v with
  | PNone => false
  | PBool b => b
  | PInt z => negb (Z.eqb z 0)
  | PStr s => negb (String.eqb s "")
  | PList l => negb (match l with [] => true | _ => false end)
  | PDict d => negb (match d with [] => true | _ => false end)
  end.

(** [len(v)] *)
Definition py_len (v : pyval) : outcome nat :=
  match v with
  | PStr s => Ok (String.length s)
  | PList l => Ok (length l)
  | PDict d => Ok (length d)
  | _ => Raise TypeError
  end.

(** [v == 'lit'] (values of different types compare unequal). *)
Definition py_eq_str (v : pyval) (lit : string) : bool :=
  match v with PStr s => String.eqb s lit | _ => false end.

(** [d.get(k, default)] *)
Definition py_get (d : list (string * pyval)) (k : string) (dflt : pyval)
  : pyval := get_or (lookup k d) dflt.

(** Whitespace stripped by [str.strip()] (ASCII part of [str.isspace]). *)
Definition is_py_space (c : ascii) : bool :=
  let n := nat_of_ascii c in
  ((Nat.leb 9 n) && (Nat.leb n 13)) || ((Nat.leb 28 n) && (Nat.leb n 32)).

Fixpoint lstrip (s : string) : string :=
  match s with
  | String c r => if is_py_space c then lstrip r else s
  | EmptyString => EmptyString
  end.

Fixpoint rstrip (s : string) : string :=
  match s with
  | EmptyString => EmptyString
  | String c r =>
    let r' := rstrip r in
    match r' with
    | EmptyString => if is_py_space c then EmptyString else String c EmptyString
    | _ => String c r'
    end
  end.

Definition digit_value (c : ascii) : option Z :=
  let n := nat_of_ascii c in
  if (Nat.leb 48 n) && (Nat.leb n 57) then Some (Z.of_nat (n - 48)) else None.

(** Decimal digits with single underscores between digits, as accepted by
    [int(str)]. *)
Fixpoint parse_digits (s : string) (acc : Z) (after_digit : bool) : option Z :=
  match s with
  | EmptyString => if after_digit then Some acc else None
  | String c r =>
    match digit_value c with
    | Some d => parse_digits r (acc * 10 + d) true
    | None =>
      if Ascii.eqb c "_"%char && after_digit then parse_digits r acc false
      else None
    end
  end.

(** Whitespace skipped by [int(str)] around the digits of an ASCII string
    ([Py_ISSPACE]: tab, newline, vertical tab, form feed, carriage return
    and space). *)
Definition is_int_space (c : ascii) : bool :=
  let n := nat_of_ascii c in
  ((Nat.leb 9 n) && (Nat.leb n 13)) || Nat.eqb n 32.

Fixpoint int_lstrip (s : string) : string :=
  match s with
  | String c r => if is_int_space c then int_lstrip r else s
  | EmptyString => EmptyString
  end.

Fixpoint int_rstrip (s : string) : string :=
  match s with
  | EmptyString => EmptyString
  | String c r =>
    let r' := int_rstrip r in
    match r' with
    | EmptyString => if is_int_space c then EmptyString else String c EmptyString
    | _ => String c r'
    end
  end.

Definition parse_int (s : string) : option Z :=
  match int_rstrip (int_lstrip s) with
  | String "+"%char r => parse_digits r 0 false
  | String "-"%char r => option_map Z.opp (parse_digits r 0 false)
  | t => parse_digits t 0 false
  end.

(** [int(v)] *)
Definition py_int (v : pyval) : outcome Z :=
  match v with
  | PInt z => Ok z
  | PBool b => Ok (if b then 1%Z else 0%Z)
  | PStr s => match parse_int s with Some z => Ok z | None => Raise ValueError end
  | _ => Raise TypeError
  end.

(* ------------------------------------------------------------------ *)
(** ** [LangChainPaperProcessor._validate_year] and [_validate_extraction] *)

Definition validate_year (year_str : pyval) : outcome bool :=
  if negb (truthy year_str) || py_eq_str year_str "Not found" then Ok false
  else
    match py_int year_str with
    | Ok year => Ok (Z.leb 1900 year && Z.leb year 2026)
    | Raise ValueError | Raise TypeError => Ok false
    | Raise e => Raise e
    end.

(** [bool(v and v != 'Not found' and len(v) > n)] *)
Definition present_longer_than (v : pyval) (n : nat) : outcome bool :=
  if negb (truthy v) then Ok false
  else if py_eq_str v "Not found" then Ok false
  else (l <- py_len v ;; Ok (Nat.ltb n l)).

Definition check_names : list string :=
  ["has_title"; "has_authors"; "has_findings"; "has_year";
   "sufficient_abstract"; "has_methodology"; "has_biomarkers"].

Definition count_true (checks : list (string * bool)) : nat :=
  length (filter snd checks).

(** Returns [(result['quality_score'], result['quality_checks'])]; the checks
    dict is evaluated entry by entry in source order. *)
Definition validate_extraction (result : list (string * pyval))
  : outcome (Q * list (string * bool)) :=
  has_title <- present_longer_than (py_get result "title" PNone) 5 ;;
  let authors := py_get result "authors" PNone in
  let has_authors := truthy authors && negb (py_eq_str authors "Not found") in
  has_findings <-
    (let kf := py_get result "key_findings" PNone in
     if negb (truthy kf) then Ok false
     else (l <- py_len (py_get result "key_findings" (PList [])) ;;
           Ok (Nat.ltb 0 l))) ;;
  has_year <- validate_year (py_get result "year" PNone) ;;
  sufficient_abstract <-
    (l <- py_len (py_get result "abstract" (PStr "")) ;; Ok (Nat.ltb 50 l)) ;;
  has_methodology <- present_longer_than (py_get result "methodology" PNone) 20 ;;
  has_biomarkers <-
    (l <- py_len (py_get result "biomarkers" (PList [])) ;; Ok (Nat.ltb 0 l)) ;;
  let checks := combine check_names
    [has_title; has_authors; has_findings; has_year;
     sufficient_abstract; has_methodology; has_biomarkers] in
  Ok (inject_Z (Z.of_nat (count_true checks)) / inject_Z (Z.of_nat (length checks)),
      checks)%Q.

(* ------------------------------------------------------------------ *)
(** ** The tenacity retry policy of [process_single_paper]

    [@retry(stop=stop_after_attempt(3),
            wait=wait_exponential(multiplier=1, min=4, max=10))]
    with tenacity's default [retry=retry_if_exception_type()] (every
    [Exception] is retried) and [reraise=False] (when the stop condition
    holds, [RetryError] wrapping the last attempt is raised). *)

Section Retry.
Context {A E : Type}.

(** What one call of the decorated function does. *)
Inductive attempt_result :=
| Returned (v : A)
| Raised (e : E).

Inductive retry_outcome :=
| RetOk (v : A)
| RetryError (last : E).

(** [wait_exponential.__call__]:
    [max(max(0, min), min(multiplier * exp_base ** (attempt_number - 1), max))] *)
Definition wait_exponential (multiplier min max : Z) (attempt_number : nat) : Z :=
  Z.max (Z.max 0 min)
        (Z.min (multiplier * 2 ^ Z.of_nat (attempt_number - 1)) max).

Definition stop_after_attempt (max_attempt_number attempt_number : nat) : bool :=
  Nat.leb max_attempt_number attempt_number.

(** Tenacity's loop from attempt [attempt_number] on; [f n] is the behaviour
    of the [n]-th call.  Returns the outcome, the number of the last attempt
    and the sleeps taken.  [fuel] only bounds the recursion; the stop
    condition ends the loop first when [fuel] is at least the attempt
    limit. *)
Fixpoint retry_loop (fuel attempt_number : nat) (f : nat -> attempt_result)
  : retry_outcome * nat * list Z :=
  match f attempt_number with
  | Returned v => (RetOk v, attempt_number, [])
  | Raised e =>
    if stop_after_attempt 3 attempt_number then
      (RetryError e, attempt_number, [])
    else
      match fuel with
      | O => (RetryError e, attempt_number, [])
      | S fuel' =>
        let w := wait_exponential 1 4 10 attempt_number in
        let '(o, n, sleeps) := retry_loop fuel' (S attempt_number) f in
        (o, n, w :: sleeps)
      end
  end.

(** A call of the decorated [process_single_paper]. *)
Definition call_with_retry (f : nat -> attempt_result)
  : retry_outcome * nat * list Z :=
  retry_loop 3 1 f.
End Retry.
Arguments attempt_result : clear implicits.
Arguments retry_outcome : clear implicits.

(** Failure kinds the spec distinguishes for a worker. *)
Inductive worker_error :=
| TransportError      (* remote service, retryable per the spec *)
| MalformedOutput     (* structural *)
| LocalIOError.       (* structural, e.g. the [open]/[mkdir] of the text file *)

Definition retryable (e : worker_error) : bool :=
  match e with TransportError => true | _ => false end.

(* ------------------------------------------------------------------ *)
(** ** Validator on records typed like [PaperExtraction] *)

Definition str_or_absent (o : option pyval) : bool :=
  match o with None | Some (PStr _) => true | _ => false end.

Definition list_or_absent (o : option pyval) : bool :=
  match o with None | Some (PList _) => true | _ => false end.

(** Text fields are strings (or missing), list fields are lists (or
    missing), as in the [PaperExtraction] model. *)
Definition typed_record (r : list (string * pyval)) : bool :=
  str_or_absent (lookup "title" r) && str_or_absent (lookup "authors" r)
  && list_or_absent (lookup "key_findings" r) && str_or_absent (lookup "year" r)
  && str_or_absent (lookup "abstract" r) && str_or_absent (lookup "methodology" r)
  && list_or_absent (lookup "biomarkers" r).

Definition str_of (o : option pyval) : string :=
  match o with Some (PStr s) => s | _ => "" end.

Definition list_of (o : option pyval) : list pyval :=
  match o with Some (PList l) => l | _ => [] end.

(** The seven checks as the spec words them, on a typed record. *)
Definition year_in_range (y : string) : bool :=
  match parse_int y with
  | Some z => Z.leb 1900 z && Z.leb z 2026
  | None => false
  end.

Definition spec_checks (r : list (string * pyval)) : list bool :=
  let title := str_of (lookup "title" r) in
  let authors := str_of (lookup "authors" r) in
  let methodology := str_of (lookup "methodology" r) in
  [ negb (String.eqb title "Not found") && Nat.ltb 5 (String.length title);
    negb (String.eqb authors "") && negb (String.eqb authors "Not found");
    Nat.ltb 0 (length (list_of (lookup "key_findings" r)));
    year_in_range (str_of (lookup "year" r));
    Nat.ltb 50 (String.length (str_of (lookup "abstract" r)));
    negb (String.eqb methodology "Not found")
      && Nat.ltb 20 (String.length methodology);
    Nat.ltb 0 (length (list_of (lookup "biomarkers" r))) ].

(* ------------------------------------------------------------------ *)
(** ** [summarize.chunk_text] and [LangChainPaperProcessor._chunk_text] *)

(** [str.split(sep)] for a non-empty [sep]: the string is scanned from the
    left; at each position where [sep] starts, the current piece ends and
    the scan resumes after [sep].  [skip] counts the characters of a matched
    separator still to be passed over. *)
Fixpoint split_go (sep s : string) (skip : nat) : list string :=
  match s with
  | EmptyString => [""]
  | String c r =>
    match skip with
    | S k => split_go sep r k
    | O =>
      if String.prefix sep s then "" :: split_go sep r (String.length sep - 1)
      else match split_go sep r 0 with
           | p :: ps => String c p :: ps
           | [] => [String c ""]
           end
    end
  end.

Definition py_split (sep s : string) : list string := split_go sep s 0.

(** [sep.join(l)] *)
Fixpoint py_join (sep : string) (l : list string) : string :=
  match l with
  | [] => ""
  | [x] => x
  | x :: t => (x ++ sep ++ py_join sep t)%string
  end.

Definition page_marker : string := "--- Page".

(** One iteration of the loop over [pages] in [chunk_text]; the state is
    [(chunks, current_chunk)]. *)
Definition chunk_step (max_chars : nat) (st : list string * string) (page : string)
  : list string * string :=
  let '(chunks, current_chunk) := st in
  if Nat.ltb max_chars (String.length current_chunk + String.length page)
     && negb (String.eqb current_chunk "")
  then (chunks ++ [current_chunk], page)
  else (chunks, (current_chunk
                 ++ ((if negb (String.eqb current_chunk "") then page_marker else "")
                     ++ page))%string).

(** [summarize.chunk_text] (and [LangChainPaperProcessor._chunk_text],
    which has the same body). *)
Definition chunk_text (max_chars : nat) (text : string) : list string :=
  if Nat.leb (String.length text) max_chars then [text]
  else
    let '(chunks, current_chunk) :=
      fold_left (chunk_step max_chars) (py_split page_marker text) ([], "") in
    if negb (String.eqb current_chunk "") then chunks ++ [current_chunk] else chunks.

Definition drop_leading_marker (text : string) : string :=
  match strip_prefix page_marker text with Some r => r | None => text end.

Definition chunk_ok (m : nat) (pages : list string) (c : string) : Prop :=
  String.length c <= m + 8 \/ In c pages.

(* ------------------------------------------------------------------ *)
(** ** [extract_text_from_pdf]: the assembled text *)

Fixpoint nat_to_dec_go (fuel n : nat) (acc : string) : string :=
  match fuel with
  | O => acc
  | S f =>
    let acc' := String (ascii_of_nat (48 + n mod 10)) acc in
    if Nat.ltb n 10 then acc' else nat_to_dec_go f (n / 10) acc'
  end.

(** [str(n)] for a natural number. *)
Definition nat_to_dec (n : nat) : string := nat_to_dec_go (S n) n "".

(** [str.strip()] *)
Definition py_strip (s : string) : string := rstrip (lstrip s).

Definition newline : string := String (ascii_of_nat 10) "".

(** The loop of [extract_text_from_pdf] over [enumerate(pdf_reader.pages)]. *)
Fixpoint text_parts_from (page_num : nat) (texts : list string) : list string :=
  match texts with
  | [] => []
  | text :: ts =>
    let rest := text_parts_from (S page_num) ts in
    if String.eqb (py_strip text) "" then rest
    else ("--- Page " ++ nat_to_dec (page_num + 1) ++ " ---" ++ newline ++ text)%string :: rest
  end.

(** [full_text = "\n\n".join(text_parts)] *)
Definition extract_full_text (texts : list string) : string :=
  py_join (newline ++ newline)%string (text_parts_from 0 texts).

(* ------------------------------------------------------------------ *)
(** ** Response clean-up in [summarize_paper_claude] / [summarize_paper_openai] *)

Definition fence : string := "```".

(** [s[k:]] *)
Definition py_slice_from (k : nat) (s : string) : string :=
  substring k (String.length s - k) s.

(** [s[:-k]] *)
Definition py_slice_drop_last (k : nat) (s : string) : string :=
  substring 0 (String.length s - k) s.

(** [s.endswith(suf)] *)
Definition ends_with (suf s : string) : bool :=
  Nat.leb (String.length suf) (String.length s)
  && String.eqb (substring (String.length s - String.length suf) (String.length suf) s) suf.

(** The response clean-up of [summarize_paper_claude] and
    [summarize_paper_openai], before [json.loads]. *)
Definition clean_response (response_text : string) : string :=
  let t0 := py_strip response_text in
  let t1 := if String.prefix "```json" t0 then py_slice_from 7 t0 else t0 in
  let t2 := if String.prefix fence t1 then py_slice_from 3 t1 else t1 in
  let t3 := if ends_with fence t2 then py_slice_drop_last 3 t2 else t2 in
  py_strip t3.

(* ------------------------------------------------------------------ *)
(** ** [json.dumps], [save_results_to_csv] and the biomarker total of [track_metrics] *)

Fixpoint dec_go (fuel : nat) (n : Z) (acc : string) : string :=
  match fuel with
  | O => acc
  | S f =>
    let acc' := String (ascii_of_nat (48 + Z.to_nat (n mod 10))) acc in
    if Z.ltb n 10 then acc' else dec_go f (n / 10) acc'
  end.

(** [str(z)] / [repr(z)] for an int: the number of bits bounds the number of
    decimal digits. *)
Definition z_to_dec (z : Z) : string :=
  let d := dec_go (S (Z.to_nat (Z.log2 (Z.abs z)))) (Z.abs z) "" in
  if Z.ltb z 0 then ("-" ++ d)%string else d.

Definition quote : string := String (ascii_of_nat 34) "".

Definition hex_digit (n : nat) : ascii :=
  ascii_of_nat (if Nat.ltb n 10 then 48 + n else 87 + n).

(** One character of [json.encoder.py_encode_basestring_ascii]
    ([ensure_ascii=True]): [ESCAPE_DCT], else ['\\u{0:04x}'] outside
    [' '..'~']. *)
Definition json_escape_char (c : ascii) : string :=
  let n := nat_of_ascii c in
  if Nat.eqb n 34 then String "\" quote
  else if Nat.eqb n 92 then "\\"
  else if Nat.eqb n 8 then "\b"
  else if Nat.eqb n 12 then "\f"
  else if Nat.eqb n 10 then "\n"
  else if Nat.eqb n 13 then "\r"
  else if Nat.eqb n 9 then "\t"
  else if Nat.ltb n 32 || Nat.leb 127 n
  then ("\u00" ++ String (hex_digit (n / 16)) (String (hex_digit (n mod 16)) ""))%string
  else String c "".

Fixpoint json_escape (s : string) : string :=
  match s with
  | EmptyString => ""
  | String c r => (json_escape_char c ++ json_escape r)%string
  end.

Definition json_str (s : string) : string := (quote ++ json_escape s ++ quote)%string.

(** [json.dumps(v)] with the default separators [', '] and [': ']. *)
Fixpoint json_dumps (v : pyval) : string :=
  match v with
  | PNone => "null"
  | PBool true => "true"
  | PBool false => "false"
  | PInt z => z_to_dec z
  | PStr s => json_str s
  | PList l =>
    ("[" ++ (fix items (l : list pyval) : string :=
               match l with
               | [] => ""
               | [x] => json_dumps x
               | x :: t => json_dumps x ++ ", " ++ items t
               end) l ++ "]")%string
  | PDict d =>
    ("{" ++ (fix members (d : list (string * pyval)) : string :=
               match d with
               | [] => ""
               | [(k, x)] => json_str k ++ ": " ++ json_dumps x
               | (k, x) :: t => json_str k ++ ": " ++ json_dumps x ++ ", " ++ members t
               end) d ++ "}")%string
  end.

(** [sep.join(l)]: [TypeError] unless every item is a [str]. *)
Fixpoint strs_of (l : list pyval) : option (list string) :=
  match l with
  | [] => Some []
  | PStr s :: t => option_map (cons s) (strs_of t)
  | _ :: _ => None
  end.

Definition py_str_join (sep : string) (l : list pyval) : outcome string :=
  match strs_of l with
  | Some ss => Ok (py_join sep ss)
  | None => Raise TypeError
  end.

Definition result_dict := list (string * pyval).

(** The in-place updates of one [result] in the loop of
    [save_results_to_csv]. *)
Definition save_update (result : result_dict) : outcome result_dict :=
  r1 <- match lookup "key_findings" result with
        | Some (PList l) =>
          s <- py_str_join " | " l ;; Ok (set_item "key_findings" (PStr s) result)
        | _ => Ok result
        end ;;
  match lookup "biomarkers" r1 with
  | Some (PList l) =>
    let r2 := set_item "num_biomarkers" (PInt (Z.of_nat (length l))) r1 in
    Ok (set_item "biomarkers" (PStr (json_dumps (PList l))) r2)
  | _ => Ok (set_item "num_biomarkers" (PInt 0) r1)
  end.

Definition csv_fieldnames : list string :=
  ["filename"; "status"; "api_provider"; "processing_method"; "title"; "authors";
   "year"; "abstract"; "research_question"; "methodology"; "key_findings";
   "conclusions"; "limitations"; "future_work"; "num_biomarkers"; "biomarkers";
   "quality_score"; "num_pages"; "text_length"; "chunks_processed"; "error"].

(** [{field: result.get(field, '') for field in fieldnames}] *)
Definition csv_row (result : result_dict) : list (string * pyval) :=
  map (fun field => (field, py_get result field (PStr ""))) csv_fieldnames.

Fixpoint save_all (results : list result_dict)
  : outcome (list result_dict * list (list (string * pyval))) :=
  match results with
  | [] => Ok ([], [])
  | result :: t =>
    r' <- save_update result ;;
    rest <- save_all t ;;
    Ok (r' :: fst rest, csv_row r' :: snd rest)
  end.

(** [save_results_to_csv]: the results list after the call (its dicts are
    mutated in place) and the rows given to [writer.writerow]. *)
Definition save_results_to_csv (results : list result_dict)
  : outcome (list result_dict * list (list (string * pyval))) :=
  match results with
  | [] => Ok (results, [])
  | _ => save_all results
  end.

Definition is_success (r : result_dict) : bool :=
  py_eq_str (py_get r "status" PNone) "success".

(** [sum(len(r.get('biomarkers', [])) for r in results if r.get('status') == 'success')]
    in [track_metrics]. *)
Fixpoint total_biomarkers (results : list result_dict) : outcome nat :=
  match results with
  | [] => Ok 0
  | r :: t =>
    if is_success r then
      n <- py_len (py_get r "biomarkers" (PList [])) ;;
      m <- total_biomarkers t ;;
      Ok (n + m)
    else total_biomarkers t
  end.

(** What the save loop changes in one result, as seen by later readers. *)
Definition saved_biomarkers (r : result_dict) : option pyval :=
  match lookup "biomarkers" r with
  | Some (PList l) => Some (PStr (json_dumps (PList l)))
  | o => o
  end.

Definition saved_count (r : result_dict) : Z :=
  match lookup "biomarkers" r with
  | Some (PList l) => Z.of_nat (length l)
  | _ => 0%Z
  end.

Definition saved_as (r r' : result_dict) : Prop :=
  lookup "status" r' = lookup "status" r /\
  lookup "biomarkers" r' = saved_biomarkers r /\
  lookup "num_biomarkers" r' = Some (PInt (saved_count r)).

Definition list_success (r : result_dict) : bool :=
  is_success r && match lookup "biomarkers" r with Some (PList _) => true | _ => false end.

(* ------------------------------------------------------------------ *)
(** ** Aggregator: further observations *)

(** Entity keys are unique and every stored entity has been mentioned. *)
Definition mentions_inv (s : aggregator) : Prop :=
  NoDup (map fst s) /\ forall k bd, In (k, bd) s -> 0 < total_mentions bd.

Definition mention_pairs (s : aggregator) : list (string * nat) :=
  map (fun nb => (fst nb, total_mentions (snd nb))) s.

(** Timestamp of the first call whose result names entity [k]. *)
Fixpoint first_mention (calls : list (string * paper_result)) (k : string) : option string :=
  match calls with
  | [] => None
  | c :: cs => if Nat.ltb 0 (occurrences (snd c) k) then Some (fst c) else first_mention cs k
  end.

Definition last_mention (calls : list (string * paper_result)) (k : string) : option string :=
  first_mention (rev calls) k.

Definition first_seen_of (s : aggregator) (k : string) : option string :=
  match lookup k s with Some bd => first_seen bd | None => None end.

Definition last_seen_of (s : aggregator) (k : string) : option string :=
  match lookup k s with Some bd => last_seen bd | None => None end.

(** Every stored (entity, condition) entry has at least one document. *)
Definition papers_inv (s : aggregator) : Prop :=
  forall k bd, In (k, bd) s -> forall d dd, In (d, dd) (diseases bd) -> papers dd <> [].

(* ------------------------------------------------------------------ *)
(** ** Concrete inputs *)

(** A paper whose biomarker names consist of a separator, or of a bare type
    prefix. *)
Definition separator_only_paper : paper_result :=
  paper "p1.pdf" [item "-" ["breast cancer"] "causal" "observational";
                  item "gene:" ["breast cancer"] "causal" "observational"].

(** Three entities link condition "x" through one document; one entity links
    condition "y" through two documents. *)
Definition ranking_calls : list (string * paper_result) :=
  [("t1", paper "p1.pdf" [item "A" ["x"; "y"] "causal" "observational";
                          item "B" ["x"] "causal" "observational";
                          item "C" ["x"] "causal" "observational"]);
   ("t2", paper "p2.pdf" [item "A" ["y"] "causal" "observational"])].

(** Distinct documents contributing to condition [d], over all entities. *)
Definition condition_documents (s : aggregator) (d : string) : list string :=
  fold_left (fun acc nb => fold_left (fun a p => set_add p a)
                             (dpapers (diseases (snd nb)) d) acc) s [].

(** A worker whose first call fails with a local I/O error and whose second
    call returns. *)
Definition io_error_then_ok (n : nat) : attempt_result unit worker_error :=
  if Nat.eqb n 1 then Raised LocalIOError else Returned tt.

(** A record that passes exactly five of the seven checks. *)
Definition record_five_checks : list (string * pyval) :=
  [("title", PStr "BRCA1 Mutations and Breast Cancer Risk");
   ("authors", PStr "Smith J, Doe J");
   ("key_findings", PList [PStr "BRCA1 raises risk"]);
   ("year", PStr "2023");
   ("abstract", PStr "Short.");
   ("methodology", PStr "Not found");
   ("biomarkers", PList [PDict []])].

(** A typed record whose year is not a number. *)
Definition record_unparseable_year : list (string * pyval) :=
  [("title", PStr "Serum markers of disease progression");
   ("authors", PStr "A. Author");
   ("year", PStr "circa 2020");
   ("abstract", PStr "Short abstract.");
   ("biomarkers", PList [PDict []])].

(** Two extracted pages. *)
Definition two_page_text : string := extract_full_text ["A"; "B"].

(** A reply wrapped in a json code fence, with surrounding whitespace. *)
Definition fenced_reply_ws1 : string := " ".

Definition fenced_reply_body : string := "{}".

(** One successful result with an empty biomarker list, before and after
    [save_results_to_csv]. *)
Definition one_success : list result_dict :=
  [[("status", PStr "success"); ("biomarkers", PList [])]].

Definition one_success_saved : list result_dict :=
  [[("status", PStr "success"); ("biomarkers", PStr "[]"); ("num_biomarkers", PInt 0)]].

(* ------------------------------------------------------------------ *)
(** ** Normaliser: lemmas *)

Lemma upper_char_idem : forall c, upper_char (upper_char c) = upper_char c.
Proof.
  intros [[] [] [] [] [] [] [] []]; reflexivity.
Qed.

Lemma is_sep_upper_char : forall c, is_sep (upper_char c) = is_sep c.
Proof.
  intros [[] [] [] [] [] [] [] []]; reflexivity.
Qed.

Lemma strip_prefix_all_chars : forall f p s r,
  strip_prefix p s = Some r -> all_chars f s = true -> all_chars f r = true.
Proof.
  intros f p; induction p as [|a p IH]; intros s r Hs Hall.
  - simpl in Hs. congruence.
  - destruct s as [|b s]; simpl in Hs; [discriminate|].
    destruct (Ascii.eqb a b); [|discriminate].
    simpl in Hall. apply andb_true_iff in Hall as [_ Hall].
    exact (IH s r Hs Hall).
Qed.

Lemma strip_prefix_length : forall p s r,
  strip_prefix p s = Some r ->
  String.length s = String.length p + String.length r.
Proof.
  induction p as [|a p IH]; intros s r Hs.
  - simpl in Hs. injection Hs as ->. reflexivity.
  - destruct s as [|b s]; simpl in Hs; [discriminate|].
    destruct (Ascii.eqb a b); [|discriminate].
    simpl. f_equal. exact (IH s r Hs).
Qed.

Lemma strip_type_prefix_all_chars : forall f s,
  all_chars f s = true -> all_chars f (strip_type_prefix s) = true.
Proof.
  intros f s H. unfold strip_type_prefix.
  destruct (strip_prefix "GENE:" s) eqn:E1;
    [eapply strip_prefix_all_chars; eauto|].
  destruct (strip_prefix "PROTEIN:" s) eqn:E2;
    [eapply strip_prefix_all_chars; eauto|].
  destruct (strip_prefix "BIOMARKER:" s) eqn:E3;
    [eapply strip_prefix_all_chars; eauto|exact H].
Qed.

Lemma strip_type_prefix_fixed_iff : forall s,
  strip_type_prefix s = s <-> has_type_prefix s = false.
Proof.
  intros s. unfold strip_type_prefix, has_type_prefix.
  destruct (strip_prefix "GENE:" s) eqn:E1.
  { apply strip_prefix_length in E1. split; [|discriminate].
    intros ->. simpl in E1. lia. }
  destruct (strip_prefix "PROTEIN:" s) eqn:E2.
  { apply strip_prefix_length in E2. split; [|discriminate].
    intros ->. simpl in E2. lia. }
  destruct (strip_prefix "BIOMARKER:" s) eqn:E3.
  { apply strip_prefix_length in E3. split; [|discriminate].
    intros ->. simpl in E3. lia. }
  tauto.
Qed.

Lemma remove_separators_no_sep : forall s,
  all_chars (fun c => negb (is_sep c)) (remove_separators s) = true.
Proof.
  induction s as [|c s IH]; simpl; [reflexivity|].
  destruct (is_sep c) eqn:E; simpl; [exact IH|].
  rewrite E, IH. reflexivity.
Qed.

Lemma upper_keeps_no_sep : forall s,
  all_chars (fun c => negb (is_sep c)) s = true ->
  all_chars (fun c => negb (is_sep c)) (upper s) = true.
Proof.
  unfold upper.
  induction s as [|c s IH]; simpl; intros H; [reflexivity|].
  rewrite is_sep_upper_char.
  apply andb_true_iff in H as [H1 H2]. rewrite H1, IH; auto.
Qed.

Lemma upper_all_fixed : forall s, all_chars is_upper_fixed (upper s) = true.
Proof.
  unfold upper.
  induction s as [|c s IH]; simpl; [reflexivity|].
  unfold is_upper_fixed. rewrite upper_char_idem, Ascii.eqb_refl. exact IH.
Qed.

Lemma remove_separators_id : forall s,
  all_chars (fun c => negb (is_sep c)) s = true -> remove_separators s = s.
Proof.
  induction s as [|c s IH]; simpl; intros H; [reflexivity|].
  apply andb_true_iff in H as [H1 H2].
  destruct (is_sep c); [discriminate|]. rewrite IH; auto.
Qed.

Lemma upper_id : forall s, all_chars is_upper_fixed s = true -> upper s = s.
Proof.
  unfold upper.
  induction s as [|c s IH]; simpl; intros H; [reflexivity|].
  apply andb_true_iff in H as [H1 H2].
  unfold is_upper_fixed in H1. apply Ascii.eqb_eq in H1.
  rewrite H1, IH; auto.
Qed.

(** A normalised name is free of separators and already upper case, so a
    second normalisation can only remove one more type prefix. *)
Lemma normalize_twice : forall x,
  normalize_biomarker_name (normalize_biomarker_name x)
  = strip_type_prefix (normalize_biomarker_name x).
Proof.
  intros x.
  assert (Hsep : all_chars (fun c => negb (is_sep c))
                   (normalize_biomarker_name x) = true).
  { destruct x as [|c r]; [reflexivity|].
    unfold normalize_biomarker_name.
    apply strip_type_prefix_all_chars, upper_keeps_no_sep,
      remove_separators_no_sep. }
  assert (Hup : all_chars is_upper_fixed (normalize_biomarker_name x) = true).
  { destruct x as [|c r]; [reflexivity|].
    unfold normalize_biomarker_name.
    apply strip_type_prefix_all_chars, upper_all_fixed. }
  remember (normalize_biomarker_name x) as t eqn:Ht. clear Ht.
  destruct t as [|c r]; [reflexivity|].
  unfold normalize_biomarker_name.
  rewrite (remove_separators_id _ Hsep), (upper_id _ Hup). reflexivity.
Qed.

(* ------------------------------------------------------------------ *)
(** ** Dictionary and set lemmas *)

Section DictLemmas.
Context {V : Type}.
Implicit Types (m : list (string * V)) (k : string) (v : V).

Lemma lookup_In : forall m k v, lookup k m = Some v -> In (k, v) m.
Proof.
  induction m as [|[k' v'] m IH]; simpl; intros k v H; [discriminate|].
  destruct (String.eqb k' k) eqn:E.
  - apply String.eqb_eq in E; subst. injection H as ->. left; reflexivity.
  - right. auto.
Qed.

Lemma lookup_None_not_In : forall m k v, lookup k m = None -> ~ In (k, v) m.
Proof.
  induction m as [|[k' v'] m IH]; simpl; intros k v H Hin; [exact Hin|].
  destruct (String.eqb k' k) eqn:E; [discriminate|].
  destruct Hin as [Heq|Hin].
  - injection Heq as -> ->. rewrite String.eqb_refl in E. discriminate.
  - exact (IH k v H Hin).
Qed.

Lemma lookup_None_not_key : forall m k, lookup k m = None -> ~ In k (map fst m).
Proof.
  intros m k H Hin. apply in_map_iff in Hin as [[k' v] [Hk Hin]].
  simpl in Hk; subst k'. exact (lookup_None_not_In m k v H Hin).
Qed.

Lemma lookup_app_None : forall m k k' v,
  lookup k (m ++ [(k', v)]) =
  match lookup k m with
  | Some x => Some x
  | None => if String.eqb k' k then Some v else None
  end.
Proof.
  induction m as [|[k0 v0] m IH]; simpl; intros k k' v; [reflexivity|].
  destruct (String.eqb k0 k); [reflexivity|]. apply IH.
Qed.

Lemma lookup_map_replace : forall m k k' v,
  lookup k (map (fun kv => if String.eqb (fst kv) k' then (k', v) else kv) m)
  = if String.eqb k' k
    then match lookup k' m with Some _ => Some v | None => None end
    else lookup k m.
Proof.
  induction m as [|[k0 v0] m IH]; simpl; intros k k' v.
  - destruct (String.eqb k' k); reflexivity.
  - destruct (String.eqb k0 k') eqn:E0; simpl.
    + apply String.eqb_eq in E0; subst k0.
      destruct (String.eqb k' k) eqn:E; [reflexivity|].
      rewrite IH, E. reflexivity.
    + destruct (String.eqb k0 k) eqn:E1.
      * apply String.eqb_eq in E1; subst k0.
        rewrite String.eqb_sym, E0. reflexivity.
      * rewrite IH. destruct (String.eqb k' k) eqn:E;
          try rewrite E0; try rewrite E1; reflexivity.
Qed.

Lemma lookup_set_item : forall m k k' v,
  lookup k (set_item k' v m) =
  if String.eqb k' k then Some v else lookup k m.
Proof.
  intros m k k' v. unfold set_item.
  destruct (lookup k' m) as [x|] eqn:Hk'.
  - rewrite lookup_map_replace, Hk'. reflexivity.
  - rewrite lookup_app_None.
    destruct (String.eqb k' k) eqn:E.
    + apply String.eqb_eq in E; subst k'. rewrite Hk'. reflexivity.
    + destruct (lookup k m); reflexivity.
Qed.

Lemma lookup_dd_getitem : forall m k k' d,
  lookup k (fst (dd_getitem d k' m)) =
  match lookup k m with
  | Some x => Some x
  | None => if String.eqb k' k then Some d else None
  end.
Proof.
  intros m k k' d. unfold dd_getitem.
  destruct (lookup k' m) as [x|] eqn:Hk'; simpl.
  - destruct (lookup k m) eqn:Hk; [reflexivity|].
    destruct (String.eqb k' k) eqn:E; [|reflexivity].
    apply String.eqb_eq in E; subst. congruence.
  - apply lookup_app_None.
Qed.

Lemma dd_getitem_value : forall m k d,
  snd (dd_getitem d k m) = get_or (lookup k m) d.
Proof.
  intros m k d. unfold dd_getitem. destruct (lookup k m); reflexivity.
Qed.

Lemma In_set_item : forall m k v p,
  In p (set_item k v m) -> p = (k, v) \/ (In p m /\ fst p <> k).
Proof.
  intros m k v p. unfold set_item.
  destruct (lookup k m) as [x|] eqn:Hk.
  - intros Hin. apply in_map_iff in Hin as [q [Hq Hin]].
    destruct (String.eqb (fst q) k) eqn:E.
    + left; symmetry; exact Hq.
    + right. subst q. split; [exact Hin|].
      intros Heq. rewrite Heq, String.eqb_refl in E. discriminate.
  - intros Hin. apply in_app_or in Hin as [Hin|[Heq|[]]].
    + right. split; [exact Hin|]. intros Heq. destruct p as [k0 v0].
      simpl in Heq; subst k0. exact (lookup_None_not_In m k v0 Hk Hin).
    + left; symmetry; exact Heq.
Qed.

Lemma In_dd_getitem : forall m k d p,
  In p (fst (dd_getitem d k m)) -> p = (k, d) \/ In p m.
Proof.
  intros m k d p. unfold dd_getitem.
  destruct (lookup k m); simpl; [auto|].
  intros Hin. apply in_app_or in Hin as [Hin|[Heq|[]]]; auto.
Qed.

(** [d[k]] on a defaultdict followed by [d[k] = v] *)
Lemma In_set_item_dd : forall m k d v p,
  In p (set_item k v (fst (dd_getitem d k m))) -> p = (k, v) \/ In p m.
Proof.
  intros m k d v p Hin. apply In_set_item in Hin as [Hp|[Hin Hk]]; [auto|].
  apply In_dd_getitem in Hin as [Hp|Hp]; [|auto].
  subst p. simpl in Hk. congruence.
Qed.

Lemma keys_map_replace : forall m k v,
  map fst (map (fun kv => if String.eqb (fst kv) k then (k, v) else kv) m)
  = map fst m.
Proof.
  induction m as [|[k0 v0] m IH]; simpl; intros k v; [reflexivity|].
  destruct (String.eqb k0 k) eqn:E; simpl; rewrite IH; [|reflexivity].
  apply String.eqb_eq in E; subst; reflexivity.
Qed.

Lemma NoDup_keys_append : forall m k v,
  lookup k m = None -> NoDup (map fst m) -> NoDup (map fst (m ++ [(k, v)])).
Proof.
  intros m k v Hk Hnd. rewrite map_app. simpl.
  apply NoDup_app; auto using NoDup_cons, NoDup_nil.
  intros x Hx [Hy|[]]. subst x. exact (lookup_None_not_key m k Hk Hx).
Qed.

Lemma NoDup_keys_set_item : forall m k v,
  NoDup (map fst m) -> NoDup (map fst (set_item k v m)).
Proof.
  intros m k v Hnd. unfold set_item.
  destruct (lookup k m) eqn:Hk.
  - rewrite keys_map_replace. exact Hnd.
  - apply NoDup_keys_append; auto.
Qed.

Lemma NoDup_keys_dd_getitem : forall m k d,
  NoDup (map fst m) -> NoDup (map fst (fst (dd_getitem d k m))).
Proof.
  intros m k d Hnd. unfold dd_getitem.
  destruct (lookup k m) eqn:Hk; simpl; [exact Hnd|].
  apply NoDup_keys_append; auto.
Qed.
End DictLemmas.

Lemma set_add_In : forall x y s, In y (set_add x s) <-> y = x \/ In y s.
Proof.
  intros x y s. unfold set_add.
  destruct (existsb (String.eqb x) s) eqn:E.
  - split; [auto|]. intros [->|H]; [|exact H].
    apply existsb_exists in E as [z [Hz Hxz]].
    apply String.eqb_eq in Hxz. subst. exact Hz.
  - rewrite in_app_iff. simpl. intuition.
Qed.

Lemma set_add_NoDup : forall x s, NoDup s -> NoDup (set_add x s).
Proof.
  intros x s Hnd. unfold set_add.
  destruct (existsb (String.eqb x) s) eqn:E; [exact Hnd|].
  apply NoDup_app; auto using NoDup_cons, NoDup_nil.
  intros y Hy [Hxy|[]]. subst y.
  assert (existsb (String.eqb x) s = true) as E'.
  { apply existsb_exists. exists x. split; [exact Hy|apply String.eqb_refl]. }
  congruence.
Qed.

Lemma set_add_idem : forall x s, set_add x (set_add x s) = set_add x s.
Proof.
  intros x s.
  assert (Hs : set_add x s = if existsb (String.eqb x) s then s else s ++ [x])
    by reflexivity.
  destruct (existsb (String.eqb x) s) eqn:E; rewrite Hs; unfold set_add.
  - rewrite E. reflexivity.
  - rewrite existsb_app. simpl.
    rewrite String.eqb_refl, orb_true_r. reflexivity.
Qed.

(* ------------------------------------------------------------------ *)
(** ** Aggregator: lemmas on the observations *)

Lemma dpapers_add_disease : forall f a e dm x d,
  dpapers (add_disease f a e dm x) d =
  if disease_hits d x then set_add f (dpapers dm d) else dpapers dm d.
Proof.
  intros f a e dm x d. unfold add_disease, disease_hits.
  destruct (String.eqb x "") eqn:Ex; simpl; [reflexivity|].
  destruct (dd_getitem default_disease_data (lower x) dm) as [dm1 dd] eqn:Hdd.
  unfold dpapers. rewrite lookup_set_item.
  destruct (String.eqb (lower x) d) eqn:E; simpl.
  - apply String.eqb_eq in E. subst d.
    assert (Hv := dd_getitem_value dm (lower x) default_disease_data).
    rewrite Hdd in Hv. simpl in Hv. subst dd.
    destruct (lookup (lower x) dm); reflexivity.
  - assert (Hl := lookup_dd_getitem dm d (lower x) default_disease_data).
    rewrite Hdd in Hl. simpl in Hl. rewrite E in Hl. rewrite Hl.
    destruct (lookup d dm); reflexivity.
Qed.

Lemma dpapers_fold_add_disease : forall f a e xs dm d,
  dpapers (fold_left (add_disease f a e) xs dm) d =
  if existsb (disease_hits d) xs then set_add f (dpapers dm d)
  else dpapers dm d.
Proof.
  intros f a e xs. induction xs as [|x xs IH]; intros dm d; simpl;
    [reflexivity|].
  rewrite IH, dpapers_add_disease.
  destruct (disease_hits d x), (existsb (disease_hits d) xs);
    simpl; auto using set_add_idem.
Qed.

(** The value [add_biomarker] stores under the normalised key. *)
Lemma lookup_add_biomarker : forall f t s bi k,
  lookup k (add_biomarker f t s (BDict bi)) =
  let raw := get_or (b_name bi) "" in
  if String.eqb raw "" then lookup k s else
  let n := normalize_biomarker_name raw in
  let bd := get_or (lookup n s) default_bio_data in
  if String.eqb n k then
    Some {| normalized_name := n;
            variants := set_add raw (variants bd);
            total_mentions := S (total_mentions bd);
            first_seen := match first_seen bd with
                          | None => Some t | Some t0 => Some t0 end;
            last_seen := Some t;
            diseases := fold_left
                          (add_disease f (get_or (b_association_type bi) "unknown")
                             (get_or (b_evidence_level bi) "unknown"))
                          (get_or (b_diseases bi) []) (diseases bd) |}
  else lookup k s.
Proof.
  intros f t s bi k. simpl.
  destruct (String.eqb (get_or (b_name bi) "") "") eqn:Er; [reflexivity|].
  set (n := normalize_biomarker_name (get_or (b_name bi) "")).
  destruct (dd_getitem default_bio_data n s) as [s1 bd] eqn:Hdd.
  assert (Hv := dd_getitem_value s n default_bio_data).
  rewrite Hdd in Hv. simpl in Hv. subst bd.
  rewrite lookup_set_item.
  destruct (String.eqb n k) eqn:E; [reflexivity|].
  assert (Hl := lookup_dd_getitem s k n default_bio_data).
  rewrite Hdd in Hl. simpl in Hl. rewrite E in Hl. rewrite Hl.
  destruct (lookup k s); reflexivity.
Qed.

Lemma papers_of_add_biomarker : forall f t s b k d,
  papers_of (add_biomarker f t s b) k d =
  if item_touches b k d then set_add f (papers_of s k d) else papers_of s k d.
Proof.
  intros f t s [bi|] k d; [|reflexivity].
  unfold papers_of at 1. rewrite lookup_add_biomarker. simpl.
  destruct (String.eqb (get_or (b_name bi) "") "") eqn:Er; simpl;
    [reflexivity|].
  destruct (String.eqb (normalize_biomarker_name (get_or (b_name bi) "")) k)
    eqn:E; simpl; [|reflexivity].
  apply String.eqb_eq in E. rewrite dpapers_fold_add_disease.
  unfold papers_of. rewrite <- E.
  destruct (lookup (normalize_biomarker_name (get_or (b_name bi) "")) s);
    reflexivity.
Qed.

Lemma mentions_of_add_biomarker : forall f t s b k,
  mentions_of (add_biomarker f t s b) k =
  mentions_of s k + (if item_names b k then 1 else 0).
Proof.
  intros f t s [bi|] k; [|simpl; lia].
  unfold mentions_of at 1. rewrite lookup_add_biomarker. simpl.
  destruct (String.eqb (get_or (b_name bi) "") "") eqn:Er; simpl;
    [unfold mentions_of; lia|].
  destruct (String.eqb (normalize_biomarker_name (get_or (b_name bi) "")) k)
    eqn:E; simpl; [|unfold mentions_of; lia].
  apply String.eqb_eq in E. unfold mentions_of. rewrite <- E.
  destruct (lookup (normalize_biomarker_name (get_or (b_name bi) "")) s);
    simpl; lia.
Qed.

Lemma add_paper_results_fold : forall t s pr,
  add_paper_results t s pr =
  fold_left (add_biomarker (doc_id pr) t) (get_or (pr_biomarkers pr) []) s.
Proof.
  intros t s pr. unfold add_paper_results, doc_id.
  destruct (get_or (pr_biomarkers pr) []); reflexivity.
Qed.

Lemma papers_of_add_paper_results : forall t s pr k d,
  papers_of (add_paper_results t s pr) k d =
  if touches pr k d then set_add (doc_id pr) (papers_of s k d)
  else papers_of s k d.
Proof.
  intros t s pr k d. rewrite add_paper_results_fold. unfold touches.
  generalize (get_or (pr_biomarkers pr) []) as bs. intros bs.
  revert s. induction bs as [|b bs IH]; intros s; simpl; [reflexivity|].
  rewrite IH, papers_of_add_biomarker.
  destruct (item_touches b k d), (existsb (fun b0 => item_touches b0 k d) bs);
    simpl; auto using set_add_idem.
Qed.

Lemma mentions_of_add_paper_results : forall t s pr k,
  mentions_of (add_paper_results t s pr) k = mentions_of s k + occurrences pr k.
Proof.
  intros t s pr k. rewrite add_paper_results_fold. unfold occurrences.
  generalize (get_or (pr_biomarkers pr) []) as bs. intros bs.
  revert s. induction bs as [|b bs IH]; intros s; simpl; [lia|].
  rewrite IH, mentions_of_add_biomarker. lia.
Qed.

Lemma run_fold : forall calls, run calls = fold_left step calls empty_aggregator.
Proof. reflexivity. Qed.

(** Document sets and mention counts over any sequence of calls. *)
Lemma papers_mentions_fold : forall calls s0 k d,
  NoDup (papers_of s0 k d) ->
  let s := fold_left step calls s0 in
  NoDup (papers_of s k d)
  /\ (forall doc, In doc (papers_of s k d) <->
        In doc (papers_of s0 k d)
        \/ exists t pr, In (t, pr) calls /\ doc_id pr = doc
                        /\ touches pr k d = true)
  /\ mentions_of s k =
     mentions_of s0 k + list_sum (map (fun c => occurrences (snd c) k) calls).
Proof.
  induction calls as [|[t pr] calls IH]; intros s0 k d Hnd;
    cbn [fold_left map list_sum].
  - split; [exact Hnd|]. split; [|simpl; lia].
    intros doc. split; [auto|]. intros [H|[t [pr [[] _]]]]. exact H.
  - change (step s0 (t, pr)) with (add_paper_results t s0 pr).
    set (s1 := add_paper_results t s0 pr).
    assert (Hnd1 : NoDup (papers_of s1 k d)).
    { unfold s1. rewrite papers_of_add_paper_results.
      destruct (touches pr k d); auto using set_add_NoDup. }
    destruct (IH s1 k d Hnd1) as [H1 [H2 H3]].
    split; [exact H1|]. split.
    + intros doc. rewrite H2. unfold s1. rewrite papers_of_add_paper_results.
      destruct (touches pr k d) eqn:Et.
      * rewrite set_add_In. split.
        -- intros [[->|H]|[t' [pr' [Hin [Hdoc Ht]]]]]; [right|left|right].
           ++ exists t, pr. split; [left; reflexivity|]. auto.
           ++ exact H.
           ++ exists t', pr'. split; [right; exact Hin|]. auto.
        -- intros [H|[t' [pr' [[Heq|Hin] [Hdoc Ht]]]]].
           ++ left; right; exact H.
           ++ injection Heq as -> ->. left; left; symmetry; exact Hdoc.
           ++ right. exists t', pr'. auto.
      * split.
        -- intros [H|[t' [pr' [Hin [Hdoc Ht]]]]]; [left; exact H|].
           right. exists t', pr'. split; [right; exact Hin|]. auto.
        -- intros [H|[t' [pr' [[Heq|Hin] [Hdoc Ht]]]]].
           ++ left; exact H.
           ++ injection Heq as -> ->. congruence.
           ++ right. exists t', pr'. auto.
    + rewrite H3. unfold s1. rewrite mentions_of_add_paper_results. simpl. lia.
Qed.

(** Over results that all lack a filename, every document set is either
    empty or the single identifier ["unknown"]. *)
Lemma papers_fold_no_filename : forall calls s0 k d,
  (forall c, In c calls -> pr_filename (snd c) = None) ->
  papers_of (fold_left step calls s0) k d =
  if existsb (fun c => touches (snd c) k d) calls
  then set_add "unknown" (papers_of s0 k d) else papers_of s0 k d.
Proof.
  induction calls as [|c calls IH]; intros s0 k d Hnone; simpl;
    [reflexivity|].
  rewrite IH by (intros c' Hc'; apply Hnone; right; exact Hc').
  unfold step. rewrite papers_of_add_paper_results.
  assert (Hdoc : doc_id (snd c) = "unknown").
  { unfold doc_id. rewrite (Hnone c (or_introl eq_refl)). reflexivity. }
  rewrite Hdoc.
  destruct (touches (snd c) k d), (existsb (fun c0 => touches (snd c0) k d) calls);
    simpl; auto using set_add_idem.
Qed.

(* ------------------------------------------------------------------ *)
(** ** Aggregator: the invariant is preserved *)

Lemma wf_diseases_add_disease : forall f a e dm x,
  wf_diseases dm -> wf_diseases (add_disease f a e dm x).
Proof.
  intros f a e dm x [Hk Hp]. unfold add_disease.
  destruct (String.eqb x ""); [split; assumption|].
  destruct (dd_getitem default_disease_data (lower x) dm) as [dm1 dd] eqn:Hdd.
  assert (Hdm1 : dm1 = fst (dd_getitem default_disease_data (lower x) dm))
    by (rewrite Hdd; reflexivity).
  assert (Hv := dd_getitem_value dm (lower x) default_disease_data).
  rewrite Hdd in Hv. simpl in Hv. subst dm1.
  split.
  - apply NoDup_keys_set_item, NoDup_keys_dd_getitem. exact Hk.
  - intros d' dd' Hin. apply In_set_item_dd in Hin as [Heq|Hin].
    + injection Heq as -> ->. simpl. apply set_add_NoDup. subst dd.
      destruct (lookup (lower x) dm) as [dd0|] eqn:Hl; simpl.
      * exact (Hp _ _ (lookup_In _ _ _ Hl)).
      * constructor.
    + exact (Hp _ _ Hin).
Qed.

Lemma wf_diseases_fold : forall f a e xs dm,
  wf_diseases dm -> wf_diseases (fold_left (add_disease f a e) xs dm).
Proof.
  intros f a e xs. induction xs as [|x xs IH]; intros dm H; simpl; auto.
  apply IH, wf_diseases_add_disease, H.
Qed.

Lemma wf_add_biomarker : forall f t s b, wf s -> wf (add_biomarker f t s b).
Proof.
  intros f t s [bi|] Hwf; [|exact Hwf]. unfold add_biomarker.
  destruct (String.eqb (get_or (b_name bi) "") ""); [exact Hwf|].
  set (n := normalize_biomarker_name (get_or (b_name bi) "")).
  destruct (dd_getitem default_bio_data n s) as [s1 bd] eqn:Hdd.
  assert (Hs1 : s1 = fst (dd_getitem default_bio_data n s))
    by (rewrite Hdd; reflexivity).
  assert (Hv := dd_getitem_value s n default_bio_data).
  rewrite Hdd in Hv. simpl in Hv. subst s1.
  intros k bd' Hin. apply In_set_item_dd in Hin as [Heq|Hin].
  - injection Heq as -> ->. simpl. split; [reflexivity|].
    apply wf_diseases_fold. subst bd.
    destruct (lookup n s) as [bd0|] eqn:Hl; simpl.
    + exact (proj2 (Hwf _ _ (lookup_In _ _ _ Hl))).
    + split; [constructor|]. intros d dd [].
  - exact (Hwf _ _ Hin).
Qed.

Lemma wf_add_paper_results : forall t s pr, wf s -> wf (add_paper_results t s pr).
Proof.
  intros t s pr. rewrite add_paper_results_fold.
  generalize (get_or (pr_biomarkers pr) []) as bs. intros bs.
  revert s. induction bs as [|b bs IH]; intros s H; simpl; auto.
  apply IH, wf_add_biomarker, H.
Qed.

Lemma wf_run : forall calls, wf (run calls).
Proof.
  intros calls. rewrite run_fold.
  assert (H0 : wf empty_aggregator) by (intros k bd []).
  revert H0. generalize empty_aggregator.
  induction calls as [|c calls IH]; intros s H; simpl; auto.
  apply IH, wf_add_paper_results, H.
Qed.

(* ------------------------------------------------------------------ *)
(** ** The stable descending sort *)

Section SortLemmas.
Context {A : Type} (key : A -> nat).

Lemma insert_desc_perm : forall x l, Permutation (x :: l) (insert_desc key x l).
Proof.
  intros x l. induction l as [|y l IH]; simpl; [reflexivity|].
  destruct (Nat.leb (key x) (key y)); [|reflexivity].
  rewrite perm_swap. constructor. exact IH.
Qed.

Lemma sort_desc_perm_acc : forall l acc,
  Permutation (fold_left (fun acc x => insert_desc key x acc) l acc) (l ++ acc).
Proof.
  induction l as [|x l IH]; intros acc; simpl; [reflexivity|].
  rewrite IH, <- insert_desc_perm. symmetry. apply Permutation_middle.
Qed.

Lemma sort_desc_perm : forall l, Permutation (sort_desc key l) l.
Proof.
  intros l. unfold sort_desc. rewrite sort_desc_perm_acc, app_nil_r.
  reflexivity.
Qed.

Lemma insert_desc_sorted : forall x l,
  StronglySorted (desc key) l -> StronglySorted (desc key) (insert_desc key x l).
Proof.
  intros x l. induction l as [|y l IH]; intros Hs; simpl.
  - repeat constructor.
  - apply StronglySorted_inv in Hs as [Hs Hy].
    destruct (Nat.leb (key x) (key y)) eqn:E.
    + apply Nat.leb_le in E. constructor; [exact (IH Hs)|].
      apply Forall_forall. intros z Hz.
      apply (Permutation_in _ (Permutation_sym (insert_desc_perm x l))) in Hz.
      destruct Hz as [<-|Hz]; [exact E|].
      exact (proj1 (Forall_forall _ _) Hy z Hz).
    + apply Nat.leb_gt in E. constructor; [constructor; assumption|].
      constructor; [unfold desc; lia|].
      apply Forall_forall. intros z Hz.
      assert (key z <= key y) by exact (proj1 (Forall_forall _ _) Hy z Hz).
      unfold desc; lia.
Qed.

Lemma sort_desc_sorted : forall l, StronglySorted (desc key) (sort_desc key l).
Proof.
  intros l. unfold sort_desc.
  assert (H0 : StronglySorted (desc key) (@nil A)) by constructor.
  revert H0. generalize (@nil A).
  induction l as [|x l IH]; intros acc H; simpl; auto.
  apply IH, insert_desc_sorted, H.
Qed.

Lemma filter_none : forall (f : A -> bool) l,
  (forall z, In z l -> f z = false) -> filter f l = [].
Proof.
  intros f l. induction l as [|z l IH]; intros H; simpl; [reflexivity|].
  rewrite (H z (or_introl eq_refl)). apply IH. intros w Hw. apply H. right; exact Hw.
Qed.

Lemma insert_desc_stable : forall c x l,
  StronglySorted (desc key) l ->
  filter (with_key key c) (insert_desc key x l)
  = filter (with_key key c) l ++ filter (with_key key c) [x].
Proof.
  intros c x l. induction l as [|y l IH]; intros Hs; [reflexivity|].
  apply StronglySorted_inv in Hs as [Hs Hy].
  cbn [insert_desc].
  destruct (Nat.leb (key x) (key y)) eqn:E.
  - cbn [filter]. rewrite (IH Hs).
    destruct (with_key key c y); reflexivity.
  - apply Nat.leb_gt in E.
    assert (Hn : forall z, In z (y :: l) -> with_key key (key x) z = false).
    { intros z [<-|Hz]; unfold with_key; apply Nat.eqb_neq; [lia|].
      assert (key z <= key y) by exact (proj1 (Forall_forall _ _) Hy z Hz).
      lia. }
    remember (y :: l) as m eqn:Hm. cbn [filter].
    destruct (with_key key c x) eqn:Ex.
    + unfold with_key in Ex. apply Nat.eqb_eq in Ex. subst c.
      rewrite (filter_none _ m Hn). reflexivity.
    + rewrite app_nil_r. reflexivity.
Qed.

Lemma sort_desc_stable_acc : forall c l acc,
  StronglySorted (desc key) acc ->
  filter (with_key key c) (fold_left (fun acc x => insert_desc key x acc) l acc)
  = filter (with_key key c) acc ++ filter (with_key key c) l.
Proof.
  intros c l. induction l as [|x l IH]; intros acc H; simpl.
  - symmetry; apply app_nil_r.
  - rewrite IH by (apply insert_desc_sorted, H).
    rewrite insert_desc_stable by exact H.
    rewrite <- app_assoc. simpl. destruct (with_key key c x); reflexivity.
Qed.

(** Stability: the items of any one key keep their input order. *)
Lemma sort_desc_stable : forall c l,
  filter (with_key key c) (sort_desc key l) = filter (with_key key c) l.
Proof.
  intros c l. unfold sort_desc.
  rewrite sort_desc_stable_acc by constructor. reflexivity.
Qed.
End SortLemmas.

(* ------------------------------------------------------------------ *)
(** ** [find_high_confidence_associations]: lemmas *)

Lemma In_collect_inner : forall min_papers (bd : bio_data)
    (ds : list (string * disease_data)) (acc : list hc_entry) e,
  In e (fold_left (fun acc2 dd =>
                     if Z.leb min_papers (Z.of_nat (length (papers (snd dd))))
                     then acc2 ++ [hc_of bd dd] else acc2) ds acc)
  <-> In e acc \/ exists dd, In dd ds
        /\ (min_papers <= Z.of_nat (length (papers (snd dd))))%Z
        /\ e = hc_of bd dd.
Proof.
  intros min_papers bd ds. induction ds as [|dd ds IH]; intros acc e; simpl.
  - split; [auto|]. intros [H|[dd [[] _]]]. exact H.
  - rewrite IH. destruct (Z.leb min_papers (Z.of_nat (length (papers (snd dd)))))
      eqn:E.
    + rewrite in_app_iff. simpl. apply Z.leb_le in E. split.
      * intros [[H|[H|[]]]|[dd' [H1 H2]]]; [left; exact H| |].
        -- right. exists dd. auto.
        -- right. exists dd'. auto.
      * intros [H|[dd' [[<-|H1] H2]]]; [left; left; exact H| |].
        -- left; right; left. symmetry. apply H2.
        -- right. exists dd'. auto.
    + apply Z.leb_gt in E. split.
      * intros [H|[dd' [H1 H2]]]; [left; exact H|]. right. exists dd'. auto.
      * intros [H|[dd' [[<-|H1] [H2 H3]]]]; [left; exact H| lia |].
        right. exists dd'. auto.
Qed.

Lemma In_collect : forall min_papers (s : aggregator) (acc : list hc_entry) e,
  In e (fold_left (fun acc nb =>
          fold_left (fun acc2 dd =>
                       if Z.leb min_papers (Z.of_nat (length (papers (snd dd))))
                       then acc2 ++ [hc_of (snd nb) dd] else acc2)
            (diseases (snd nb)) acc) s acc)
  <-> In e acc \/ exists nb dd, In nb s /\ In dd (diseases (snd nb))
        /\ (min_papers <= Z.of_nat (length (papers (snd dd))))%Z
        /\ e = hc_of (snd nb) dd.
Proof.
  intros min_papers s. induction s as [|nb s IH]; intros acc e; simpl.
  - split; [auto|]. intros [H|[nb [dd [[] _]]]]. exact H.
  - rewrite IH, In_collect_inner. split.
    + intros [[H|[dd H]]|[nb' [dd [H1 H2]]]]; [left; exact H| |].
      * right. exists nb, dd. tauto.
      * right. exists nb', dd. tauto.
    + intros [H|[nb' [dd [[<-|H1] H2]]]]; [left; left; exact H| |].
      * left; right. exists dd. exact H2.
      * right. exists nb', dd. tauto.
Qed.

Lemma confidence_score_spec : forall n, confidence_score n = spec_confidence n.
Proof.
  intros n. unfold confidence_score, spec_confidence, Qmin, GenericMinMax.gmin.
  set (a := (inject_Z (Z.of_nat n) / 10)%Q).
  destruct (Qle_bool a 1) eqn:E.
  - apply Qle_bool_iff in E. apply (proj1 (Qle_alt _ _)) in E.
    destruct (a ?= 1)%Q; congruence.
  - destruct (a ?= 1)%Q eqn:C; [| |reflexivity];
      exfalso; assert (Hle : (a <= 1)%Q)
        by (apply (proj2 (Qle_alt _ _)); congruence);
      apply Qle_bool_iff in Hle; congruence.
Qed.

Lemma In_find_high_confidence : forall s min_papers e,
  wf s ->
  In e (find_high_confidence_associations s min_papers) <->
  exists k bd d dd, In (k, bd) s /\ In (d, dd) (diseases bd)
    /\ (min_papers <= Z.of_nat (length (papers dd)))%Z
    /\ e = expected_entry k d dd.
Proof.
  intros s min_papers e Hwf. unfold find_high_confidence_associations.
  split.
  - intros Hin. apply (Permutation_in _ (sort_desc_perm _ _)) in Hin.
    unfold collect_high_confidence in Hin. apply In_collect in Hin.
    destruct Hin as [[]|[[k bd] [[d dd] [H1 [H2 [H3 ->]]]]]].
    exists k, bd, d, dd. repeat split; auto.
    unfold hc_of, expected_entry. simpl.
    rewrite (proj1 (Hwf k bd H1)), confidence_score_spec. reflexivity.
  - intros [k [bd [d [dd [H1 [H2 [H3 ->]]]]]]].
    apply (Permutation_in _ (Permutation_sym (sort_desc_perm _ _))).
    unfold collect_high_confidence. apply In_collect. right.
    exists (k, bd), (d, dd). repeat split; auto.
    unfold hc_of, expected_entry. simpl.
    rewrite (proj1 (Hwf k bd H1)), confidence_score_spec. reflexivity.
Qed.

(* ------------------------------------------------------------------ *)
(** ** [get_summary]: lemmas *)

Lemma all_diseases_flat : forall s,
  all_diseases s = fold_left dd_add (flat_map (fun nb => disease_counts (snd nb)) s) [].
Proof.
  intros s. unfold all_diseases. generalize (@nil (string * nat)).
  induction s as [|nb s IH]; intros acc; simpl; [reflexivity|].
  rewrite fold_left_app, <- IH. f_equal.
  unfold disease_counts. generalize (map fst (diseases (snd nb))) as ks.
  intros ks. revert acc. induction ks as [|x ks IHk]; intros acc; simpl;
    [reflexivity|].
  rewrite IHk. reflexivity.
Qed.

Lemma lookup_map_pair : forall (g : string -> nat) K x,
  lookup x (map (fun d => (d, g d)) K) =
  if existsb (String.eqb x) K then Some (g x) else None.
Proof.
  intros g K x. induction K as [|d K IH]; simpl; [reflexivity|].
  rewrite (String.eqb_sym x d).
  destruct (String.eqb d x) eqn:E; simpl; [|exact IH].
  apply String.eqb_eq in E. subst. reflexivity.
Qed.

Lemma In_first_occ_acc : forall l acc y,
  In y (fold_left (fun acc x => set_add x acc) l acc) <-> In y acc \/ In y l.
Proof.
  induction l as [|x l IH]; intros acc y; simpl; [tauto|].
  rewrite IH, set_add_In.
  split; [intros [[->|H]|H]|intros [H|[->|H]]]; auto.
Qed.

Lemma existsb_eqb_In : forall x K, existsb (String.eqb x) K = true <-> In x K.
Proof.
  intros x K. rewrite existsb_exists. split.
  - intros [y [Hy E]]. apply String.eqb_eq in E. subst. exact Hy.
  - intros H. exists x. split; [exact H|apply String.eqb_refl].
Qed.

Lemma dd_add_map : forall (g : string -> nat) K x n,
  (~ In x K -> g x = 0) ->
  dd_add (map (fun d => (d, g d)) K) (x, n) =
  map (fun d => (d, g d + (if String.eqb x d then n else 0))) (set_add x K).
Proof.
  intros g K x n Hg. unfold dd_add, dd_getitem. simpl.
  rewrite lookup_map_pair. unfold set_add.
  destruct (existsb (String.eqb x) K) eqn:E.
  - unfold set_item. rewrite lookup_map_pair, E, map_map.
    apply map_ext. intros d. simpl.
    rewrite (String.eqb_sym x d).
    destruct (String.eqb d x) eqn:Edx; [|f_equal; lia].
    apply String.eqb_eq in Edx. subst. reflexivity.
  - assert (Hx : ~ In x K) by (rewrite <- existsb_eqb_In; congruence).
    unfold set_item. rewrite lookup_app_None, lookup_map_pair, E,
      String.eqb_refl, map_app, map_app, map_map. simpl.
    rewrite String.eqb_refl, Hg by exact Hx. f_equal.
    apply map_ext_in. intros d Hd. simpl.
    rewrite (String.eqb_sym x d).
    destruct (String.eqb d x) eqn:Edx; [|f_equal; lia].
    apply String.eqb_eq in Edx. subst. contradiction.
Qed.

Lemma psum_not_key : forall ps x, ~ In x (map fst ps) -> psum ps x = 0.
Proof.
  induction ps as [|[d n] ps IH]; intros x Hx; simpl; [reflexivity|].
  unfold psum in *. simpl.
  destruct (String.eqb d x) eqn:E.
  - apply String.eqb_eq in E. subst. exfalso. apply Hx. left; reflexivity.
  - apply IH. intros H. apply Hx. right; exact H.
Qed.

Lemma fold_dd_add : forall ps,
  fold_left dd_add ps [] =
  map (fun d => (d, psum ps d)) (first_occurrences (map fst ps)).
Proof.
  induction ps as [|[x n] ps IH] using rev_ind; [reflexivity|].
  rewrite fold_left_app, IH. simpl.
  unfold first_occurrences. rewrite map_app, fold_left_app. simpl.
  rewrite dd_add_map.
  - apply map_ext. intros d. f_equal. unfold psum.
    rewrite map_app, list_sum_app. simpl. rewrite (String.eqb_sym x d).
    destruct (String.eqb d x); lia.
  - intros Hx. apply psum_not_key. intros Hin. apply Hx.
    apply In_first_occ_acc. right; exact Hin.
Qed.

Lemma lookup_not_key : forall {V} (m : list (string * V)) k,
  ~ In k (map fst m) -> lookup k m = None.
Proof.
  intros V m k. induction m as [|[k' v] m IH]; intros H; simpl; [reflexivity|].
  destruct (String.eqb k' k) eqn:E.
  - apply String.eqb_eq in E. subst. exfalso. apply H. left; reflexivity.
  - apply IH. intros Hin. apply H. right; exact Hin.
Qed.

Lemma psum_keys : forall (h : string -> nat) K d,
  NoDup K ->
  psum (map (fun x => (x, h x)) K) d =
  if existsb (String.eqb d) K then h d else 0.
Proof.
  intros h K d. induction K as [|x K IH]; intros Hnd; simpl; [reflexivity|].
  apply NoDup_cons_iff in Hnd as [Hx Hnd].
  unfold psum in *. simpl. rewrite IH by exact Hnd.
  rewrite (String.eqb_sym d x).
  destruct (String.eqb x d) eqn:E; simpl.
  - apply String.eqb_eq in E. subst x.
    destruct (existsb (String.eqb d) K) eqn:Ek; [|lia].
    apply existsb_eqb_In in Ek. contradiction.
  - reflexivity.
Qed.

Lemma psum_disease_counts : forall bd d,
  NoDup (map fst (diseases bd)) ->
  psum (disease_counts bd) d = length (dpapers (diseases bd) d).
Proof.
  intros bd d Hnd. unfold disease_counts.
  rewrite psum_keys by exact Hnd.
  rewrite dd_getitem_value. unfold dpapers.
  destruct (existsb (String.eqb d) (map fst (diseases bd))) eqn:E.
  - destruct (lookup d (diseases bd)); reflexivity.
  - rewrite lookup_not_key; [reflexivity|].
    rewrite <- existsb_eqb_In. congruence.
Qed.

Lemma all_diseases_ranking : forall s, wf s -> all_diseases s = condition_ranking s.
Proof.
  intros s Hwf. rewrite all_diseases_flat, fold_dd_add.
  unfold condition_ranking.
  replace (map fst (flat_map (fun nb => disease_counts (snd nb)) s)) with (scan s).
  2:{ unfold scan. clear Hwf. induction s as [|nb s IH]; simpl; [reflexivity|].
      rewrite map_app, IH. f_equal. unfold disease_counts.
      rewrite map_map. simpl. symmetry. apply map_id. }
  apply map_ext. intros d. f_equal. unfold condition_total.
  induction s as [|[k bd] s IH]; [reflexivity|]. simpl.
  unfold psum in *. rewrite map_app, list_sum_app. fold (psum (disease_counts bd) d).
  rewrite psum_disease_counts by exact (proj1 (proj2 (Hwf k bd (or_introl eq_refl)))).
  rewrite IH; [reflexivity|].
  intros k' bd' Hin. apply Hwf. right; exact Hin.
Qed.

(* ------------------------------------------------------------------ *)
(** ** Quality validator: lemmas *)

Lemma present_longer_than_typed : forall o n,
  str_or_absent o = true ->
  present_longer_than (get_or o PNone) n =
  Ok (negb (String.eqb (str_of o) "Not found")
      && Nat.ltb n (String.length (str_of o))).
Proof.
  intros [[| | | [|c s] | |]|] n H; try discriminate; try reflexivity.
  unfold present_longer_than, py_eq_str, get_or, str_of.
  destruct (String.eqb (String c s) "Not found"); reflexivity.
Qed.

Lemma validate_year_typed : forall o,
  str_or_absent o = true ->
  validate_year (get_or o PNone) = Ok (year_in_range (str_of o)).
Proof.
  intros [[| | | [|c s] | |]|] H; try discriminate; try reflexivity.
  unfold validate_year, py_eq_str, get_or, str_of.
  destruct (String.eqb (String c s) "Not found") eqn:E;
    cbn [truthy negb orb].
  - apply String.eqb_eq in E. rewrite E. reflexivity.
  - change (String.eqb (String c s) "") with false. simpl.
    unfold year_in_range. destruct (parse_int (String c s)); reflexivity.
Qed.

Lemma len_list_typed : forall o,
  list_or_absent o = true -> py_len (get_or o (PList [])) = Ok (length (list_of o)).
Proof. intros [[| | | | |]|] H; try discriminate; reflexivity. Qed.

Lemma len_str_typed : forall o,
  str_or_absent o = true ->
  py_len (get_or o (PStr "")) = Ok (String.length (str_of o)).
Proof. intros [[| | | | |]|] H; try discriminate; reflexivity. Qed.

Lemma findings_typed : forall o,
  list_or_absent o = true ->
  (if negb (truthy (get_or o PNone)) then Ok false
   else (l <- py_len (get_or o (PList [])) ;; Ok (Nat.ltb 0 l)))
  = Ok (Nat.ltb 0 (length (list_of o))).
Proof. intros [[| | | | [|x l] |]|] H; try discriminate; reflexivity. Qed.

Lemma authors_typed : forall o,
  str_or_absent o = true ->
  truthy (get_or o PNone) && negb (py_eq_str (get_or o PNone) "Not found")
  = negb (String.eqb (str_of o) "") && negb (String.eqb (str_of o) "Not found").
Proof. intros [[| | | [|c s] | |]|] H; try discriminate; reflexivity. Qed.

(** On a typed record the validator returns, and its checks are the spec's. *)
Lemma validate_extraction_typed : forall r,
  typed_record r = true ->
  validate_extraction r =
  Ok ((inject_Z (Z.of_nat (count_true (combine check_names (spec_checks r))))
       / inject_Z 7)%Q,
      combine check_names (spec_checks r)).
Proof.
  intros r H. unfold typed_record in H.
  repeat rewrite andb_true_iff in H.
  destruct H as [[[[[[H1 H2] H3] H4] H5] H6] H7].
  unfold validate_extraction, py_get.
  rewrite (present_longer_than_typed _ _ H1). simpl bind.
  rewrite (findings_typed _ H3). simpl bind.
  rewrite (validate_year_typed _ H4). simpl bind.
  rewrite (len_str_typed _ H5). simpl bind.
  rewrite (present_longer_than_typed _ _ H6). simpl bind.
  rewrite (len_list_typed _ H7). simpl bind.
  rewrite (authors_typed _ H2). reflexivity.
Qed.

(** Shape of any successful validation. *)
Lemma validate_extraction_shape : forall r score checks,
  validate_extraction r = Ok (score, checks) ->
  exists b1 b2 b3 b4 b5 b6 b7,
    checks = combine check_names [b1; b2; b3; b4; b5; b6; b7]
    /\ score = (inject_Z (Z.of_nat (count_true checks)) / inject_Z 7)%Q.
Proof.
  intros r score checks H. unfold validate_extraction in H.
  destruct (present_longer_than _ 5) as [b1|]; simpl in H; [|discriminate].
  match type of H with context [bind ?m _] => destruct m as [b3|] end;
    simpl in H; [|discriminate].
  destruct (validate_year _) as [b4|]; simpl in H; [|discriminate].
  destruct (py_len (py_get r "abstract" (PStr ""))) as [l5|];
    simpl in H; [|discriminate].
  destruct (present_longer_than _ 20) as [b6|]; simpl in H; [|discriminate].
  destruct (py_len (py_get r "biomarkers" (PList []))) as [l7|];
    simpl in H; [|discriminate].
  injection H as <- <-.
  do 7 eexists. split; reflexivity.
Qed.

(* ------------------------------------------------------------------ *)
(** ** Chunking, extraction, clean-up, saving: lemmas *)

Lemma str_app_nil_r : forall s, (s ++ "")%string = s.
Proof. induction s as [|c s IH]; simpl; [|rewrite IH]; reflexivity. Qed.

Lemma str_app_assoc : forall a b c, (a ++ (b ++ c))%string = ((a ++ b) ++ c)%string.
Proof. induction a as [|x a IH]; intros b c; simpl; [|rewrite IH]; reflexivity. Qed.

Lemma str_length_app : forall a b,
  String.length (a ++ b) = String.length a + String.length b.
Proof. induction a as [|x a IH]; intros b; simpl; [|rewrite IH]; reflexivity. Qed.

Section SplitJoin.
Variable sep : string.

Lemma split_go_skip : forall t rest,
  split_go sep (t ++ rest) (String.length t) = split_go sep rest 0.
Proof. induction t as [|c t IH]; intros rest; [reflexivity|]. simpl. apply IH. Qed.

Lemma split_go_nonempty : forall s k, split_go sep s k <> [].
Proof.
  induction s as [|c s IH]; intros k; [discriminate|].
  destruct k; [|apply IH].
  cbn [split_go].
  destruct (String.prefix sep (String c s)); [discriminate|].
  destruct (split_go sep s 0); discriminate.
Qed.

Lemma prefix_app : forall p s, String.prefix p s = true <-> exists r, s = (p ++ r)%string.
Proof.
  induction p as [|a p IH]; intros s.
  - destruct s; simpl; split; eauto.
  - destruct s as [|b s]; simpl.
    + split; [discriminate|]. intros [r H]; discriminate.
    + destruct (ascii_dec a b) as [->|Hne].
      * rewrite IH. split; intros [r H]; exists r; congruence.
      * split; [discriminate|]. intros [r H]. injection H; intros; congruence.
Qed.

Lemma py_join_cons : forall x l,
  py_join sep (x :: l) = (x ++ match l with [] => "" | _ => sep ++ py_join sep l end)%string.
Proof. intros x [|y l]; simpl; [rewrite str_app_nil_r|]; reflexivity. Qed.
End SplitJoin.

Lemma py_split_join : forall sep s, sep <> "" -> py_join sep (py_split sep s) = s.
Proof.
  intros sep s Hsep. unfold py_split.
  remember (String.length s) as n eqn:Hn. revert s Hn.
  induction n as [n IH] using (well_founded_induction lt_wf). intros s Hn.
  destruct s as [|c r]; [reflexivity|].
  cbn [split_go].
  destruct (String.prefix sep (String c r)) eqn:Hp.
  - apply prefix_app in Hp as [rest Hrest].
    destruct sep as [|a t]; [contradiction|].
    simpl in Hrest. injection Hrest as -> ->.
    replace (String.length (String a t) - 1) with (String.length t) by (simpl; lia).
    rewrite split_go_skip, py_join_cons.
    destruct (split_go (String a t) rest 0) as [|p ps] eqn:E;
      [exfalso; exact (split_go_nonempty _ _ _ E)|].
    rewrite <- E. simpl. rewrite (IH (String.length rest)); [reflexivity| |reflexivity].
    rewrite Hn. simpl. rewrite str_length_app. lia.
  - destruct (split_go sep r 0) as [|p ps] eqn:E;
      [exfalso; exact (split_go_nonempty _ _ _ E)|].
    rewrite py_join_cons. simpl. f_equal.
    rewrite <- py_join_cons, <- E.
    apply (IH (String.length r)); [rewrite Hn; simpl; lia|reflexivity].
Qed.

Lemma strip_prefix_app : forall p s r, strip_prefix p s = Some r <-> s = (p ++ r)%string.
Proof.
  induction p as [|a p IH]; intros s r; simpl.
  - split; congruence.
  - destruct s as [|b s]; [split; discriminate|].
    destruct (Ascii.eqb a b) eqn:E.
    + apply Ascii.eqb_eq in E. subst b. rewrite IH. split; congruence.
    + split; [discriminate|]. intros H. injection H as -> _.
      rewrite Ascii.eqb_refl in E. discriminate.
Qed.

Lemma py_join_cons_ne : forall sep x l, l <> [] ->
  py_join sep (x :: l) = (x ++ sep ++ py_join sep l)%string.
Proof. intros sep x [|y l] H; [contradiction|reflexivity]. Qed.

Lemma py_join_merge : forall sep l a b r,
  py_join sep (l ++ (a ++ sep ++ b)%string :: r) = py_join sep (l ++ a :: b :: r).
Proof.
  intros sep l a b r. induction l as [|x l IH].
  - simpl app. rewrite (py_join_cons_ne sep a (b :: r)) by discriminate.
    rewrite !py_join_cons. rewrite <- !str_app_assoc. reflexivity.
  - simpl app. rewrite !py_join_cons_ne by (destruct l; discriminate).
    rewrite IH. reflexivity.
Qed.

Lemma chunk_fold_join : forall m ps chunks cur,
  cur <> "" -> Forall (fun p => p <> "") ps ->
  let '(ch, cur') := fold_left (chunk_step m) ps (chunks, cur) in
  cur' <> "" /\ py_join page_marker (ch ++ [cur']) = py_join page_marker (chunks ++ cur :: ps).
Proof.
  intros m ps. induction ps as [|p ps IH]; intros chunks cur Hcur Hps; cbn [fold_left].
  - split; [exact Hcur|reflexivity].
  - inversion Hps as [|? ? Hp Hps']; subst.
    unfold chunk_step at 2.
    assert (E : String.eqb cur "" = false) by (apply String.eqb_neq; exact Hcur).
    rewrite E. simpl negb. rewrite andb_true_r.
    destruct (Nat.ltb m (String.length cur + String.length p)).
    + specialize (IH (chunks ++ [cur]) p Hp Hps').
      destruct (fold_left (chunk_step m) ps (chunks ++ [cur], p)) as [ch cur'].
      destruct IH as [H1 H2]. split; [exact H1|]. rewrite H2, <- app_assoc. reflexivity.
    + assert (Hne : (cur ++ page_marker ++ p)%string <> "")
        by (destruct cur; [contradiction|discriminate]).
      specialize (IH chunks _ Hne Hps').
      destruct (fold_left (chunk_step m) ps (chunks, (cur ++ page_marker ++ p)%string))
        as [ch cur'].
      destruct IH as [H1 H2]. split; [exact H1|]. rewrite H2, py_join_merge. reflexivity.
Qed.

Lemma py_split_marker_app : forall r,
  exists ps, py_split page_marker (page_marker ++ r) = "" :: ps.
Proof.
  intros r. unfold py_split. change (page_marker ++ r)%string with
    (String "-" ("-- Page" ++ r))%string.
  cbn [split_go].
  replace (String.prefix page_marker (String "-" ("-- Page" ++ r)))
    with true by (symmetry; apply prefix_app; exists r; reflexivity).
  eauto.
Qed.

Lemma chunk_fold_bound : forall m pages ps chunks cur,
  (forall p, In p ps -> In p pages) ->
  (forall c, In c chunks -> c <> "" /\ chunk_ok m pages c) ->
  (cur = "" \/ chunk_ok m pages cur) ->
  let '(ch, cur') := fold_left (chunk_step m) ps (chunks, cur) in
  (forall c, In c ch -> c <> "" /\ chunk_ok m pages c) /\ (cur' = "" \/ chunk_ok m pages cur').
Proof.
  intros m pages ps. induction ps as [|p ps IH]; intros chunks cur Hin Hch Hcur;
    cbn [fold_left]; [split; assumption|].
  assert (Hp : In p pages) by (apply Hin; left; reflexivity).
  assert (Hin' : forall q, In q ps -> In q pages) by (intros q Hq; apply Hin; right; exact Hq).
  unfold chunk_step at 2.
  destruct (String.eqb cur "") eqn:E; simpl negb; rewrite ?andb_false_r, ?andb_true_r.
  - apply String.eqb_eq in E. subst cur. simpl.
    apply IH; auto. right. right. exact Hp.
  - apply String.eqb_neq in E.
    destruct Hcur as [Hcur|Hcur]; [contradiction|].
    destruct (Nat.ltb m (String.length cur + String.length p)) eqn:Lt.
    + apply IH; auto; [|right; right; exact Hp].
      intros c Hc. apply in_app_iff in Hc as [Hc|[<-|[]]]; auto.
    + apply Nat.ltb_ge in Lt. apply IH; auto. right. left.
      rewrite !str_length_app. simpl. lia.
Qed.

Lemma chunk_fold_all_empty : forall m ps,
  Forall (fun p => p = "") ps -> fold_left (chunk_step m) ps ([], "") = ([], "").
Proof.
  intros m ps H. induction H as [|p ps Hp H IH]; [reflexivity|].
  subst p. cbn [fold_left]. unfold chunk_step at 2. simpl. rewrite ?andb_false_r. exact IH.
Qed.

Lemma chunk_fold_nonempty : forall m ps chunks cur,
  chunks <> [] \/ cur <> "" \/ Exists (fun p => p <> "") ps ->
  let '(ch, cur') := fold_left (chunk_step m) ps (chunks, cur) in
  ch <> [] \/ cur' <> "".
Proof.
  intros m ps. induction ps as [|p ps IH]; intros chunks cur H; cbn [fold_left].
  - destruct H as [H|[H|H]]; [left|right|inversion H]; assumption.
  - destruct (chunk_step m (chunks, cur) p) as [ch1 cur1] eqn:St.
    apply IH. unfold chunk_step in St.
    destruct (Nat.ltb m (String.length cur + String.length p)
              && negb (String.eqb cur "")) eqn:C; injection St as <- <-.
    + left. destruct chunks; discriminate.
    + destruct H as [H|[H|H]]; [left; exact H| |].
      * right; left. destruct cur; [contradiction|discriminate].
      * inversion H as [? ? Hp|? ? Hex]; subst.
        -- right; left. intros He.
           apply (f_equal String.length) in He. rewrite !str_length_app in He.
           destruct p; [contradiction|simpl in He; lia].
        -- destruct (String.eqb cur "") eqn:Ec.
           ++ apply String.eqb_eq in Ec. subst cur. simpl. right; right; exact Hex.
           ++ right; left. apply String.eqb_neq in Ec. destruct cur; [contradiction|discriminate].
Qed.

Lemma chunk_text_nil_iff : forall m text,
  chunk_text m text = [] <->
  m < String.length text /\ Forall (fun p => p = "") (py_split page_marker text).
Proof.
  intros m text. unfold chunk_text.
  destruct (Nat.leb (String.length text) m) eqn:L.
  - split; [discriminate|]. intros [H _]. apply Nat.leb_le in L. lia.
  - apply Nat.leb_gt in L. split.
    + intros H. split; [exact L|].
      destruct (Forall_Exists_dec (fun p => p = "") (fun p => string_dec p "")
                  (py_split page_marker text)) as [F|F]; [exact F|exfalso].
      pose proof (chunk_fold_nonempty m (py_split page_marker text) [] "") as N.
      destruct (fold_left (chunk_step m) (py_split page_marker text) ([], "")) as [ch cur'].
      assert (N' : ch <> [] \/ cur' <> "") by (apply N; right; right; exact F).
      destruct (negb (String.eqb cur' "")) eqn:E.
      * destruct ch; discriminate.
      * apply negb_false_iff, String.eqb_eq in E. subst cur'.
        destruct N' as [N'|N']; [contradiction|apply N'; reflexivity].
    + intros [_ F]. rewrite chunk_fold_all_empty by exact F. reflexivity.
Qed.

Lemma text_parts_from_shape : forall texts n p,
  In p (text_parts_from n texts) -> exists y, p = ("--- Page " ++ y)%string.
Proof.
  induction texts as [|t ts IH]; intros n p H; [destruct H|].
  simpl in H. destruct (String.eqb (py_strip t) "").
  - eapply IH; exact H.
  - destruct H as [<-|H]; [eexists; reflexivity|eapply IH; exact H].
Qed.

Lemma py_split_marker_space : forall y,
  Exists (fun p => p <> "") (py_split page_marker ("--- Page " ++ y)%string).
Proof.
  intros y. unfold py_split.
  change ("--- Page " ++ y)%string with (String "-" ("-- Page" ++ String " " y))%string.
  cbn [split_go].
  replace (String.prefix page_marker (String "-" ("-- Page" ++ String " " y))) with true
    by (symmetry; apply prefix_app; eexists; reflexivity).
  replace (String.length page_marker - 1) with (String.length "-- Page") by reflexivity.
  rewrite split_go_skip.
  apply Exists_cons_tl. cbn [split_go].
  destruct (split_go page_marker y 0) as [|q qs]; apply Exists_cons_hd; discriminate.
Qed.

Lemma substring_app_l : forall p r k m,
  substring (String.length p + k) m (p ++ r) = substring k m r.
Proof. induction p as [|c p IH]; intros r k m; [reflexivity|]. simpl. apply IH. Qed.

Lemma substring_full : forall s, substring 0 (String.length s) s = s.
Proof. induction s as [|c s IH]; [reflexivity|]. simpl. rewrite IH. reflexivity. Qed.

Lemma substring_prefix : forall p r, substring 0 (String.length p) (p ++ r) = p.
Proof. induction p as [|c p IH]; intros r; [destruct r; reflexivity|]. simpl. rewrite IH. reflexivity. Qed.

Lemma py_slice_from_app : forall p r,
  py_slice_from (String.length p) (p ++ r) = r.
Proof.
  intros p r. unfold py_slice_from. rewrite str_length_app.
  replace (String.length p + String.length r - String.length p) with (String.length r) by lia.
  rewrite <- (Nat.add_0_r (String.length p)) at 1. rewrite substring_app_l.
  apply substring_full.
Qed.

Lemma ends_with_app : forall p r, ends_with r (p ++ r) = true.
Proof.
  intros p r. unfold ends_with. rewrite str_length_app.
  replace (String.length p + String.length r - String.length r) with (String.length p + 0) by lia.
  rewrite substring_app_l, substring_full, String.eqb_refl, andb_true_r.
  apply Nat.leb_le. lia.
Qed.

Lemma py_slice_drop_last_app : forall p r,
  py_slice_drop_last (String.length r) (p ++ r) = p.
Proof.
  intros p r. unfold py_slice_drop_last. rewrite str_length_app.
  replace (String.length p + String.length r - String.length r) with (String.length p) by lia.
  apply substring_prefix.
Qed.

Lemma rstrip_app : forall a b,
  rstrip (a ++ b) = match rstrip b with EmptyString => rstrip a | _ => (a ++ rstrip b)%string end.
Proof.
  induction a as [|c a IH]; intros b.
  - simpl. destruct (rstrip b); reflexivity.
  - cbn [append rstrip]. rewrite IH.
    destruct (rstrip b) as [|d rb] eqn:Eb; [reflexivity|].
    destruct a; reflexivity.
Qed.

Lemma rstrip_spaces : forall s, all_chars is_py_space s = true -> rstrip s = "".
Proof.
  induction s as [|c s IH]; intros H; [reflexivity|].
  simpl in H. apply andb_true_iff in H as [Hc Hs].
  simpl. rewrite IH by exact Hs. rewrite Hc. reflexivity.
Qed.

Lemma lstrip_spaces_app : forall w s,
  all_chars is_py_space w = true -> lstrip (w ++ s) = lstrip s.
Proof.
  induction w as [|c w IH]; intros s H; [reflexivity|].
  simpl in H. apply andb_true_iff in H as [Hc Hw].
  simpl. rewrite Hc. apply IH, Hw.
Qed.

Lemma rstrip_app_spaces : forall s w,
  all_chars is_py_space w = true -> rstrip (s ++ w) = rstrip s.
Proof. intros s w H. rewrite rstrip_app, rstrip_spaces by exact H. reflexivity. Qed.

Lemma rstrip_last_nonspace : forall a d, is_py_space d = false ->
  rstrip (a ++ String d "") = (a ++ String d "")%string.
Proof. intros a d H. rewrite rstrip_app. simpl. rewrite H. reflexivity. Qed.

Lemma rstrip_fence_end : forall x, rstrip (x ++ "```") = (x ++ "```")%string.
Proof.
  intros x. change "```" with ("``" ++ String "`" "")%string.
  rewrite str_app_assoc, rstrip_last_nonspace by reflexivity.
  rewrite <- str_app_assoc. reflexivity.
Qed.

Lemma py_strip_fenced : forall ws1 body ws2,
  all_chars is_py_space ws1 = true -> all_chars is_py_space ws2 = true ->
  py_strip (ws1 ++ "```json" ++ body ++ "```" ++ ws2)%string = ("```json" ++ body ++ "```")%string.
Proof.
  intros ws1 body ws2 H1 H2. unfold py_strip.
  rewrite lstrip_spaces_app by exact H1.
  assert (E0 : lstrip ("```json" ++ body ++ "```" ++ ws2)%string
               = ("```json" ++ body ++ "```" ++ ws2)%string) by reflexivity.
  rewrite E0, !str_app_assoc, rstrip_app_spaces by exact H2.
  rewrite rstrip_fence_end, <- !str_app_assoc. reflexivity.
Qed.

Lemma lstrip_idem : forall s, lstrip (lstrip s) = lstrip s.
Proof.
  induction s as [|c s IH]; [reflexivity|]. simpl.
  destruct (is_py_space c) eqn:E; [exact IH|]. simpl. rewrite E. reflexivity.
Qed.

Lemma rstrip_idem : forall s, rstrip (rstrip s) = rstrip s.
Proof.
  induction s as [|c s IH]; [reflexivity|]. cbn [rstrip].
  destruct (rstrip s) as [|d q] eqn:E.
  - destruct (is_py_space c) eqn:Ec; [reflexivity|]. simpl. rewrite Ec. reflexivity.
  - change (rstrip (String c (String d q)))
      with (match rstrip (String d q) with
            | EmptyString => if is_py_space c then EmptyString else String c EmptyString
            | _ => String c (rstrip (String d q)) end).
    rewrite IH. reflexivity.
Qed.

Lemma lstrip_rstrip_lstrip : forall s, lstrip (rstrip (lstrip s)) = rstrip (lstrip s).
Proof.
  induction s as [|c s IH]; [reflexivity|]. simpl.
  destruct (is_py_space c) eqn:Ec; [exact IH|].
  cbn [rstrip]. destruct (rstrip s) as [|d q].
  - rewrite Ec. simpl. rewrite Ec. reflexivity.
  - simpl. rewrite Ec. reflexivity.
Qed.

Lemma py_strip_idem : forall s, py_strip (py_strip s) = py_strip s.
Proof. intros s. unfold py_strip. rewrite lstrip_rstrip_lstrip. apply rstrip_idem. Qed.

Lemma prefix_json_fence : forall t,
  String.prefix "```json" t = true -> String.prefix fence t = true.
Proof.
  intros t H. apply prefix_app in H as [r ->]. apply prefix_app.
  exists ("json" ++ r)%string. reflexivity.
Qed.

Lemma py_int_no_overflow : forall v, py_int v <> Raise OverflowError.
Proof.
  intros [| b | z | s | l | d]; simpl; try discriminate.
  destruct (parse_int s); discriminate.
Qed.

Lemma json_items_eq : forall l,
  (fix items (l : list pyval) : string :=
     match l with
     | [] => ""
     | [x] => json_dumps x
     | x :: t => json_dumps x ++ ", " ++ items t
     end)%string l = py_join ", " (map json_dumps l).
Proof.
  induction l as [|x t IH]; [reflexivity|].
  destruct t as [|y t]; [reflexivity|].
  transitivity (json_dumps x ++ ", " ++ py_join ", " (map json_dumps (y :: t)))%string;
    [|reflexivity].
  rewrite <- IH. reflexivity.
Qed.

Lemma json_dumps_list : forall l,
  json_dumps (PList l) = ("[" ++ py_join ", " (map json_dumps l) ++ "]")%string.
Proof. intros l. cbn [json_dumps]. rewrite json_items_eq. reflexivity. Qed.

Lemma dec_go_length : forall f n acc,
  String.length acc + (match f with O => 0 | S _ => 1 end) <= String.length (dec_go f n acc).
Proof.
  induction f as [|f IH]; intros n acc; simpl; [lia|].
  destruct (Z.ltb n 10); simpl; [lia|].
  specialize (IH (n / 10)%Z (String (ascii_of_nat (48 + Z.to_nat (n mod 10))) acc)).
  simpl in IH. lia.
Qed.

Lemma json_dumps_nonempty : forall v, 1 <= String.length (json_dumps v).
Proof.
  intros [| [] | z | s | l | d]; cbn [json_dumps]; try (simpl; lia).
  unfold z_to_dec.
  pose proof (dec_go_length (S (Z.to_nat (Z.log2 (Z.abs z)))) (Z.abs z) "") as H.
  simpl in H. destruct (Z.ltb z 0); simpl; lia.
Qed.

Lemma py_join_length_ge : forall sep l,
  Forall (fun s => 1 <= String.length s) l -> length l <= String.length (py_join sep l).
Proof.
  intros sep l H. induction H as [|x l Hx H IH]; [simpl; lia|].
  rewrite py_join_cons. destruct l as [|y l].
  - simpl. rewrite str_app_nil_r. exact Hx.
  - rewrite !str_length_app. simpl length in *. lia.
Qed.

Lemma json_dumps_list_length : forall l,
  length l + 2 <= String.length (json_dumps (PList l)).
Proof.
  intros l. rewrite json_dumps_list. simpl String.length.
  rewrite str_length_app. simpl String.length.
  pose proof (py_join_length_ge ", " (map json_dumps l)) as H.
  rewrite length_map in H.
  assert (Forall (fun s => 1 <= String.length s) (map json_dumps l)).
  { apply Forall_map, Forall_forall. intros v _. apply json_dumps_nonempty. }
  specialize (H H0). lia.
Qed.

Lemma save_update_saved_as : forall r r', save_update r = Ok r' -> saved_as r r'.
Proof.
  intros r r' H. unfold save_update in H.
  assert (Hr1 : exists r1, (match lookup "key_findings" r with
        | Some (PList l) =>
          s <- py_str_join " | " l ;; Ok (set_item "key_findings" (PStr s) r)
        | _ => Ok r
        end) = Ok r1 /\ lookup "status" r1 = lookup "status" r
        /\ lookup "biomarkers" r1 = lookup "biomarkers" r).
  { destruct (lookup "key_findings" r) as [[| | | |l|]|]; simpl in H |- *;
      try (eexists; split; [reflexivity|split; reflexivity]).
    destruct (py_str_join " | " l) as [s|e]; simpl in H |- *; [|discriminate].
    eexists; split; [reflexivity|]. rewrite !lookup_set_item. split; reflexivity. }
  destruct Hr1 as [r1 [E [Hs Hb]]]. rewrite E in H. simpl in H.
  unfold saved_as, saved_biomarkers, saved_count.
  rewrite <- Hs, <- Hb.
  destruct (lookup "biomarkers" r1) as [[| | | |l|]|] eqn:B; injection H as <-;
    rewrite ?lookup_set_item; simpl; rewrite ?B; auto.
Qed.

Lemma save_all_saved_as : forall rs rs' rows,
  save_all rs = Ok (rs', rows) -> Forall2 saved_as rs rs' /\ rows = map csv_row rs'.
Proof.
  induction rs as [|r rs IH]; intros rs' rows H; simpl in H.
  - injection H as <- <-. split; [constructor|reflexivity].
  - destruct (save_update r) as [r'|e] eqn:E1; simpl in H; [|discriminate].
    destruct (save_all rs) as [[t rows']|e] eqn:E2; simpl in H; [|discriminate].
    injection H as <- <-. destruct (IH t rows' eq_refl) as [H1 H2].
    split; [constructor; [apply save_update_saved_as; exact E1|exact H1]|].
    simpl. rewrite H2. reflexivity.
Qed.

Lemma save_results_to_csv_saved_as : forall rs rs' rows,
  save_results_to_csv rs = Ok (rs', rows) -> Forall2 saved_as rs rs' /\ rows = map csv_row rs'.
Proof.
  intros [|r rs] rs' rows H.
  - simpl in H. injection H as <- <-. split; [constructor|reflexivity].
  - apply save_all_saved_as. exact H.
Qed.

Lemma total_biomarkers_saved : forall rs rs' n,
  Forall2 saved_as rs rs' -> total_biomarkers rs = Ok n ->
  exists n', total_biomarkers rs' = Ok n' /\ n + 2 * length (filter list_success rs) <= n'.
Proof.
  intros rs rs' n H. revert n.
  induction H as [|r r' rs rs' [Hs [Hb _]] H IH]; intros n Hn.
  - simpl in Hn. injection Hn as <-. exists 0. split; [reflexivity|simpl; lia].
  - assert (Es : is_success r' = is_success r)
      by (unfold is_success, py_get; rewrite Hs; reflexivity).
    cbn [total_biomarkers] in Hn |- *. rewrite Es.
    change (filter list_success (r :: rs))
      with (if list_success r then r :: filter list_success rs else filter list_success rs).
    unfold list_success at 1.
    destruct (is_success r) eqn:S; cbn [andb].
    + unfold py_get in *. rewrite Hb. unfold saved_biomarkers.
      destruct (lookup "biomarkers" r) as [v|] eqn:B; cbn [get_or] in Hn |- *.
      * destruct (py_len v) as [a|e] eqn:L; cbn [bind] in Hn; [|discriminate].
        destruct (total_biomarkers rs) as [m|e] eqn:T; cbn [bind] in Hn; [|discriminate].
        injection Hn as <-. destruct (IH m eq_refl) as [m' [T' Hm']].
        destruct v as [| | | |l|]; cbn [py_len] in L; try discriminate; injection L as <-;
          cbn [py_len bind]; rewrite T'; cbn [bind]; eexists; (split; [reflexivity|]);
          cbn [length]; try lia.
        pose proof (json_dumps_list_length l). lia.
      * cbn [py_len bind] in Hn |- *.
        destruct (total_biomarkers rs) as [m|e] eqn:T; cbn [bind] in Hn; [|discriminate].
        injection Hn as <-. destruct (IH m eq_refl) as [m' [T' Hm']].
        rewrite T'. cbn [bind]. eexists; split; [reflexivity|lia].
    + apply IH, Hn.
Qed.

Lemma mentions_inv_add_biomarker : forall f t s b,
  mentions_inv s -> mentions_inv (add_biomarker f t s b).
Proof.
  intros f t s [bi|] [Hnd Hpos]; [|split; assumption]. unfold add_biomarker.
  destruct (String.eqb (get_or (b_name bi) "") ""); [split; assumption|].
  set (n := normalize_biomarker_name (get_or (b_name bi) "")).
  destruct (dd_getitem default_bio_data n s) as [s1 bd] eqn:Hdd.
  assert (Hs1 : s1 = fst (dd_getitem default_bio_data n s)) by (rewrite Hdd; reflexivity).
  subst s1. split.
  - apply NoDup_keys_set_item, NoDup_keys_dd_getitem, Hnd.
  - intros k bd' Hin. apply In_set_item_dd in Hin as [Heq|Hin].
    + injection Heq as -> ->. simpl. lia.
    + exact (Hpos _ _ Hin).
Qed.

Lemma mentions_inv_add_paper_results : forall t s pr,
  mentions_inv s -> mentions_inv (add_paper_results t s pr).
Proof.
  intros t s pr. rewrite add_paper_results_fold.
  generalize (get_or (pr_biomarkers pr) []) as bs. intros bs.
  revert s. induction bs as [|b bs IH]; intros s H; simpl; auto.
  apply IH, mentions_inv_add_biomarker, H.
Qed.

Lemma mentions_inv_run : forall calls, mentions_inv (run calls).
Proof.
  intros calls. rewrite run_fold.
  assert (H0 : mentions_inv empty_aggregator) by (split; [constructor|intros k bd []]).
  revert H0. generalize empty_aggregator.
  induction calls as [|c calls IH]; intros s H; simpl; auto.
  apply IH, mentions_inv_add_paper_results, H.
Qed.

Lemma lookup_NoDup_In : forall {V} (m : list (string * V)) k v,
  NoDup (map fst m) -> In (k, v) m -> lookup k m = Some v.
Proof.
  intros V m. induction m as [|[k0 v0] m IH]; intros k v Hnd Hin; [destruct Hin|].
  simpl in Hnd |- *. apply NoDup_cons_iff in Hnd as [Hk0 Hnd].
  destruct Hin as [Heq|Hin].
  - injection Heq as -> ->. rewrite String.eqb_refl. reflexivity.
  - destruct (String.eqb k0 k) eqn:E; [|apply IH; assumption].
    apply String.eqb_eq in E. subst k0. exfalso. apply Hk0.
    apply in_map_iff. exists (k, v). split; [reflexivity|exact Hin].
Qed.

Lemma mentions_total : forall calls k,
  mentions_of (run calls) k = list_sum (map (fun c => occurrences (snd c) k) calls).
Proof.
  intros calls k. rewrite run_fold.
  assert (H0 : NoDup (papers_of empty_aggregator k "")) by constructor.
  destruct (papers_mentions_fold calls empty_aggregator k "" H0) as (_ & _ & Hm).
  exact Hm.
Qed.

Lemma seen_add_biomarker : forall f t s b k,
  first_seen_of (add_biomarker f t s b) k =
    match first_seen_of s k with
    | Some x => Some x
    | None => if item_names b k then Some t else None
    end
  /\ last_seen_of (add_biomarker f t s b) k =
    if item_names b k then Some t else last_seen_of s k.
Proof.
  intros f t s [bi|] k; [|simpl; destruct (first_seen_of s k); split; reflexivity].
  unfold first_seen_of, last_seen_of. rewrite !lookup_add_biomarker. simpl.
  destruct (String.eqb (get_or (b_name bi) "") "") eqn:Er; simpl.
  - destruct (lookup k s) as [bd|]; [destruct (first_seen bd)|]; split; reflexivity.
  - destruct (String.eqb (normalize_biomarker_name (get_or (b_name bi) "")) k) eqn:E; simpl.
    + apply String.eqb_eq in E. rewrite <- E.
      destruct (lookup (normalize_biomarker_name (get_or (b_name bi) "")) s) as [bd|];
        simpl; [destruct (first_seen bd)|]; split; reflexivity.
    + destruct (lookup k s) as [bd|]; [destruct (first_seen bd)|]; split; reflexivity.
Qed.

Lemma existsb_item_names : forall bs k,
  existsb (fun b => item_names b k) bs = Nat.ltb 0 (list_sum (map (fun b => if item_names b k then 1 else 0) bs)).
Proof.
  induction bs as [|b bs IH]; intros k; [reflexivity|]. simpl.
  rewrite IH. destruct (item_names b k); simpl; [|reflexivity].
  symmetry. apply Nat.ltb_lt. lia.
Qed.

Lemma seen_add_paper_results : forall t s pr k,
  first_seen_of (add_paper_results t s pr) k =
    match first_seen_of s k with
    | Some x => Some x
    | None => if Nat.ltb 0 (occurrences pr k) then Some t else None
    end
  /\ last_seen_of (add_paper_results t s pr) k =
    if Nat.ltb 0 (occurrences pr k) then Some t else last_seen_of s k.
Proof.
  intros t s pr k. rewrite add_paper_results_fold. unfold occurrences.
  rewrite <- existsb_item_names.
  generalize (get_or (pr_biomarkers pr) []) as bs. intros bs.
  revert s. induction bs as [|b bs IH]; intros s; simpl.
  - destruct (first_seen_of s k); split; reflexivity.
  - destruct (IH (add_biomarker (doc_id pr) t s b)) as [H1 H2].
    destruct (seen_add_biomarker (doc_id pr) t s b k) as [G1 G2].
    rewrite H1, H2, G1, G2.
    destruct (first_seen_of s k), (item_names b k), (existsb (fun b0 => item_names b0 k) bs);
      split; reflexivity.
Qed.

Lemma seen_fold : forall calls s0 k,
  first_seen_of (fold_left step calls s0) k =
    match first_seen_of s0 k with Some x => Some x | None => first_mention calls k end
  /\ last_seen_of (fold_left step calls s0) k =
    match last_mention calls k with Some x => Some x | None => last_seen_of s0 k end.
Proof.
  unfold last_mention.
  induction calls as [|[t pr] calls IH]; intros s0 k; simpl.
  - destruct (first_seen_of s0 k); split; reflexivity.
  - destruct (IH (step s0 (t, pr)) k) as [H1 H2]. rewrite H1, H2.
    destruct (seen_add_paper_results t s0 pr k) as [G1 G2].
    unfold step. simpl. rewrite G1, G2.
    assert (Hr : forall (l : list (string * paper_result)) c,
               first_mention (l ++ [c]) k =
               match first_mention l k with
               | Some x => Some x
               | None => if Nat.ltb 0 (occurrences (snd c) k) then Some (fst c) else None
               end).
    { induction l as [|c0 l IHl]; intros c; simpl; [destruct (Nat.ltb 0 (occurrences (snd c) k)); reflexivity|].
      destruct (Nat.ltb 0 (occurrences (snd c0) k)); [reflexivity|apply IHl]. }
    rewrite Hr. simpl.
    destruct (first_seen_of s0 k), (Nat.ltb 0 (occurrences pr k)), (first_mention (rev calls) k);
      split; reflexivity.
Qed.

Lemma set_add_nonempty : forall x s, set_add x s <> [].
Proof.
  intros x s H. assert (Hin : In x (set_add x s)) by (apply set_add_In; left; reflexivity).
  rewrite H in Hin. destruct Hin.
Qed.

Lemma add_disease_nonempty : forall f a e dm x,
  (forall d dd, In (d, dd) dm -> papers dd <> []) ->
  forall d dd, In (d, dd) (add_disease f a e dm x) -> papers dd <> [].
Proof.
  intros f a e dm x H d dd Hin. unfold add_disease in Hin.
  destruct (String.eqb x ""); [exact (H d dd Hin)|].
  destruct (dd_getitem default_disease_data (lower x) dm) as [dm1 dd0] eqn:Hdd.
  assert (Hs1 : dm1 = fst (dd_getitem default_disease_data (lower x) dm))
    by (rewrite Hdd; reflexivity).
  subst dm1. apply In_set_item_dd in Hin as [Heq|Hin].
  - injection Heq as -> ->. simpl. apply set_add_nonempty.
  - exact (H d dd Hin).
Qed.

Lemma add_disease_fold_nonempty : forall f a e xs dm,
  (forall d dd, In (d, dd) dm -> papers dd <> []) ->
  forall d dd, In (d, dd) (fold_left (add_disease f a e) xs dm) -> papers dd <> [].
Proof.
  intros f a e xs. induction xs as [|x xs IH]; intros dm H; simpl; auto.
  apply IH. apply add_disease_nonempty, H.
Qed.

Lemma papers_inv_add_biomarker : forall f t s b, papers_inv s -> papers_inv (add_biomarker f t s b).
Proof.
  intros f t s [bi|] Hinv; [|exact Hinv]. unfold add_biomarker.
  destruct (String.eqb (get_or (b_name bi) "") ""); [exact Hinv|].
  set (n := normalize_biomarker_name (get_or (b_name bi) "")).
  destruct (dd_getitem default_bio_data n s) as [s1 bd] eqn:Hdd.
  assert (Hs1 : s1 = fst (dd_getitem default_bio_data n s)) by (rewrite Hdd; reflexivity).
  assert (Hv := dd_getitem_value s n default_bio_data).
  rewrite Hdd in Hv. simpl in Hv. subst s1.
  intros k bd' Hin. apply In_set_item_dd in Hin as [Heq|Hin].
  - injection Heq as -> ->. simpl. apply add_disease_fold_nonempty.
    subst bd. destruct (lookup n s) as [bd0|] eqn:Hl; simpl.
    + exact (Hinv _ _ (lookup_In _ _ _ Hl)).
    + intros d dd [].
  - exact (Hinv _ _ Hin).
Qed.

Lemma papers_inv_run : forall calls, papers_inv (run calls).
Proof.
  intros calls. rewrite run_fold.
  assert (H0 : papers_inv empty_aggregator) by (intros k bd []).
  revert H0. generalize empty_aggregator.
  induction calls as [|c calls IH]; intros s H; simpl; auto.
  apply IH. unfold step. rewrite add_paper_results_fold.
  generalize (get_or (pr_biomarkers (snd c)) []) as bs. intros bs.
  revert s H. induction bs as [|b bs IHb]; intros s H; simpl; auto.
  apply IHb, papers_inv_add_biomarker, H.
Qed.

Lemma collect_inner_length : forall min_papers (bd : bio_data) (dds : list (string * disease_data)) acc,
  (forall d dd, In (d, dd) dds -> papers dd <> []) -> (min_papers <= 1)%Z ->
  length (fold_left (fun acc2 dd =>
                       if Z.leb min_papers (Z.of_nat (length (papers (snd dd))))
                       then acc2 ++ [hc_of bd dd] else acc2) dds acc)
  = length acc + length dds.
Proof.
  intros min_papers bd dds. induction dds as [|[d dd] dds IH]; intros acc H Hmin; simpl; [lia|].
  assert (Hp : papers dd <> []) by (apply (H d); left; reflexivity).
  replace (Z.leb min_papers (Z.of_nat (length (papers dd)))) with true.
  - rewrite IH; [| intros d' dd' Hin; apply (H d'); right; exact Hin | exact Hmin].
    rewrite length_app. simpl. lia.
  - symmetry. apply Z.leb_le. destruct (papers dd); [contradiction|simpl; lia].
Qed.

Lemma collect_length : forall min_papers (s : aggregator) acc,
  papers_inv s -> (min_papers <= 1)%Z ->
  length (fold_left (fun acc nb =>
               fold_left (fun acc2 dd =>
                            if Z.leb min_papers (Z.of_nat (length (papers (snd dd))))
                            then acc2 ++ [hc_of (snd nb) dd] else acc2)
                 (diseases (snd nb)) acc) s acc)
  = length acc + list_sum (map (fun nb => length (diseases (snd nb))) s).
Proof.
  intros min_papers s. induction s as [|[k bd] s IH]; intros acc H Hmin; simpl; [lia|].
  rewrite IH; [|intros k' bd' Hin; apply (H k'); right; exact Hin|exact Hmin].
  rewrite collect_inner_length; [simpl; lia| |exact Hmin].
  intros d dd Hin. exact (H k bd (or_introl eq_refl) d dd Hin).
Qed.

Lemma text_parts_from_nil_iff : forall texts n,
  text_parts_from n texts = [] <-> Forall (fun t => py_strip t = "") texts.
Proof.
  induction texts as [|t ts IH]; intros n; simpl.
  - split; constructor.
  - destruct (String.eqb (py_strip t) "") eqn:E.
    + apply String.eqb_eq in E. rewrite IH, Forall_cons_iff. tauto.
    + apply String.eqb_neq in E. split; [discriminate|].
      intros H. apply Forall_cons_iff in H as [H _]. contradiction.
Qed.

(* ------------------------------------------------------------------ *)
(** ** Claims *)

(** C1 (code defect): a biomarker name made only of separators ("-") or of
    a bare type prefix ("gene:") passes the [if not raw_name] guard, which
    tests the raw name, and normalises to the empty string; the aggregator
    then holds an entity under the empty key. *)
Lemma add_paper_results_creates_empty_key :
  normalize_biomarker_name "-" = ""
  /\ normalize_biomarker_name "gene:" = ""
  /\ lookup "" (add_paper_results "t" empty_aggregator separator_only_paper)
     <> None.
Proof.
  split; [reflexivity|]. split; [reflexivity|]. vm_compute. discriminate.
Qed.

(** C2 (counterexample): normalisation is not idempotent on
    "gene:gene:BRCA1": it normalises to "GENE:BRCA1", which normalises to
    "BRCA1". *)
Lemma normalize_not_idempotent :
  normalize_biomarker_name (normalize_biomarker_name "gene:gene:BRCA1")
  <> normalize_biomarker_name "gene:gene:BRCA1".
Proof. vm_compute. discriminate. Qed.

(** C2 (amended): [normalize(normalize(x)) == normalize(x)] holds exactly
    when [normalize(x)] does not itself start with "GENE:", "PROTEIN:" or
    "BIOMARKER:"; and "BRCA1", "BRCA-1", "brca1" all normalise to "BRCA1". *)
Theorem normalize_idempotent_iff : forall x,
  (normalize_biomarker_name (normalize_biomarker_name x)
   = normalize_biomarker_name x
   <-> has_type_prefix (normalize_biomarker_name x) = false)
  /\ normalize_biomarker_name "BRCA1" = "BRCA1"
  /\ normalize_biomarker_name "BRCA-1" = "BRCA1"
  /\ normalize_biomarker_name "brca1" = "BRCA1".
Proof.
  intros x. split; [|repeat split; reflexivity].
  rewrite normalize_twice. apply strip_type_prefix_fixed_iff.
Qed.

(** C3 (counterexample): [top_diseases] ranks "x" (one distinct document)
    above "y" (two distinct documents): its count for "x" is 3, one per
    entity naming "x" in the same document. *)
Lemma top_diseases_not_by_distinct_documents :
  top_diseases (get_summary (run ranking_calls)) = [("x", 3); ("y", 2)]
  /\ condition_documents (run ranking_calls) "x" = ["p1.pdf"]
  /\ condition_documents (run ranking_calls) "y" = ["p1.pdf"; "p2.pdf"].
Proof. vm_compute. repeat split. Qed.

(** C3 (amended): [top_diseases] is the first ten entries of a list [L]
    sorted by descending count, where [L] holds every condition once with
    its count = sum over entities of the number of distinct documents
    linking that entity to the condition, and conditions with equal counts
    keep the order in which [get_summary] first meets them (entities in
    insertion order, each entity's conditions in insertion order). *)
Theorem top_diseases_ranking : forall calls,
  let s := run calls in
  exists L,
    top_diseases (get_summary s) = firstn 10 L
    /\ length (top_diseases (get_summary s)) <= 10
    /\ StronglySorted (desc snd) L
    /\ Permutation L (condition_ranking s)
    /\ forall c, filter (with_key snd c) L = filter (with_key snd c) (condition_ranking s).
Proof.
  intros calls s. exists (sort_desc snd (all_diseases s)).
  rewrite <- (all_diseases_ranking s (wf_run calls)).
  split; [reflexivity|]. split.
  { change (top_diseases (get_summary s))
      with (firstn 10 (sort_desc snd (all_diseases s))).
    rewrite length_firstn. lia. }
  split; [apply sort_desc_sorted|]. split; [apply sort_desc_perm|].
  intros c. apply sort_desc_stable.
Qed.

(** C4: after any sequence of ingestions and for any threshold, the
    high-confidence list is sorted by descending document count and holds
    exactly one entry per (entity, condition) pair whose number of distinct
    documents is at least [min_papers]; each entry reports that count and
    the confidence [min(count / 10, 1)], so 5 documents give 0.5 and 12
    documents give 1.0. *)
Theorem find_high_confidence_associations_spec : forall calls min_papers,
  let s := run calls in
  let L := find_high_confidence_associations s min_papers in
  StronglySorted (desc hc_paper_count) L
  /\ (forall e, In e L <->
        exists k bd d dd, In (k, bd) s /\ In (d, dd) (diseases bd)
          /\ (min_papers <= Z.of_nat (length (papers dd)))%Z
          /\ e = expected_entry k d dd)
  /\ (forall k bd d dd, In (k, bd) s -> In (d, dd) (diseases bd) -> NoDup (papers dd))
  /\ (forall e, In e L -> hc_paper_count e = 5 -> (hc_confidence_score e == 1 # 2)%Q)
  /\ (forall e, In e L -> hc_paper_count e = 12 -> (hc_confidence_score e == 1)%Q).
Proof.
  intros calls min_papers s L. pose proof (wf_run calls) as Hwf.
  assert (Hscore : forall e, In e L ->
            hc_confidence_score e = spec_confidence (hc_paper_count e)).
  { intros e He. apply (In_find_high_confidence s min_papers e Hwf) in He.
    destruct He as (k & bd & d & dd & _ & _ & _ & ->). reflexivity. }
  split; [apply sort_desc_sorted|]. split.
  { intros e. apply In_find_high_confidence, Hwf. }
  split.
  { intros k bd d dd Hk Hd. destruct (Hwf k bd Hk) as [_ [_ Hp]]. eapply Hp, Hd. }
  split; intros e He Hc; rewrite (Hscore e He), Hc; reflexivity.
Qed.

(** C5 (counterexample): a failure that is not a transport failure (a local
    I/O error) is retried like any other exception; the second call's result
    is returned after one 4 second wait. *)
Lemma non_transport_failure_is_retried :
  retryable LocalIOError = false
  /\ call_with_retry io_error_then_ok = (RetOk tt, 2, [4%Z]).
Proof. split; reflexivity. Qed.

(** C5 (amended): a document is attempted at most three times; before
    attempt [n + 1] the worker sleeps [wait_exponential(1, 4, 10)] for
    attempt [n], a value between 4 and 10 seconds; every raised exception
    is retried whatever its kind; the first returned value is the result,
    and if the third attempt raises, the outcome is a retry error carrying
    that last exception. *)
Theorem call_with_retry_policy : forall (A E : Type) (f : nat -> attempt_result A E),
  let '(o, n, sleeps) := call_with_retry f in
  1 <= n <= 3
  /\ sleeps = map (wait_exponential 1 4 10) (seq 1 (n - 1))
  /\ Forall (fun w => (4 <= w <= 10)%Z) sleeps
  /\ (forall k, 1 <= k < n -> exists e, f k = Raised e)
  /\ match o with
     | RetOk v => f n = Returned v
     | RetryError e => n = 3 /\ f 3 = Raised e
     end.
Proof.
  intros A E f. unfold call_with_retry. simpl.
  destruct (f 1) as [v1|e1] eqn:E1; simpl.
  { repeat split; auto; intros k Hk; lia. }
  destruct (f 2) as [v2|e2] eqn:E2; simpl.
  { repeat split; auto; try (repeat constructor; unfold wait_exponential; simpl; lia).
    intros k Hk. replace k with 1 by lia. eauto. }
  destruct (f 3) as [v3|e3] eqn:E3; simpl.
  - repeat split; auto; try (repeat constructor; unfold wait_exponential; simpl; lia).
    intros k Hk. assert (k = 1 \/ k = 2) as [->| ->] by lia; eauto.
  - repeat split; auto; try (repeat constructor; unfold wait_exponential; simpl; lia).
    intros k Hk. assert (k = 1 \/ k = 2) as [->| ->] by lia; eauto.
Qed.

(** C6: whenever the validator returns, its checks are the seven named
    checks in order, the score is the number of passed checks divided by 7,
    the score lies in [0, 1], five passed checks give 5/7, and on records
    whose fields have their declared types the checks are exactly the seven
    conditions (title longer than 5 and not the sentinel, authors present,
    at least one finding, year an integer in [1900, 2026], abstract longer
    than 50, methodology present and longer than 20, at least one entity). *)
Theorem validate_extraction_score : forall r score checks,
  validate_extraction r = Ok (score, checks) ->
  map fst checks = check_names
  /\ length checks = 7
  /\ (score == inject_Z (Z.of_nat (count_true checks)) / 7)%Q
  /\ (0 <= score <= 1)%Q
  /\ (count_true checks = 5 -> (score == 5 # 7)%Q)
  /\ (typed_record r = true -> checks = combine check_names (spec_checks r)).
Proof.
  intros r score checks H.
  destruct (validate_extraction_shape _ _ _ H)
    as (b1 & b2 & b3 & b4 & b5 & b6 & b7 & Hc & Hs).
  assert (Hle : count_true checks <= 7)
    by (subst checks; destruct b1, b2, b3, b4, b5, b6, b7; vm_compute; lia).
  split; [subst checks; reflexivity|]. split; [subst checks; reflexivity|].
  split; [rewrite Hs; reflexivity|]. split.
  { rewrite Hs. unfold Qle, Qdiv, Qmult, Qinv; simpl. lia. }
  split.
  { intros H5. rewrite Hs, H5. reflexivity. }
  intros Ht. rewrite (validate_extraction_typed r Ht) in H.
  injection H as _ Hc'. symmetry. exact Hc'.
Qed.

Lemma validate_extraction_score_witness :
  exists score checks,
    validate_extraction record_five_checks = Ok (score, checks)
    /\ count_true checks = 5 /\ (score == 5 # 7)%Q.
Proof.
  exists (5 # 7)%Q, (combine check_names [true; true; true; true; false; false; true]).
  assert (Hv : validate_extraction record_five_checks
               = Ok (5 # 7, combine check_names [true; true; true; true; false; false; true]))
    by (vm_compute; reflexivity).
  split; [exact Hv|]. split; [reflexivity|].
  destruct (validate_extraction_score _ _ _ Hv) as (_ & _ & _ & _ & H5 & _).
  apply H5. reflexivity.
Defined.

(** C7 (counterexample): a record with a null abstract, or with a numeric
    title, makes the validator raise [TypeError] ([len(None)], [len(12345)]). *)
Lemma validate_extraction_raises_on_untyped_fields :
  validate_extraction [("abstract", PNone)] = Raise TypeError
  /\ validate_extraction [("title", PInt 12345)] = Raise TypeError.
Proof. split; vm_compute; reflexivity. Qed.

(** C7 (amended): validation completes with a score and a checks breakdown
    for every record whose title, authors, year, abstract and methodology
    are strings or absent and whose key findings and biomarkers are lists or
    absent; its checks are then the seven conditions, and a year string that
    [int()] cannot parse simply fails the [has_year] check.  Other field
    types can make it raise (see the counterexample). *)
Theorem validate_extraction_completes_on_typed : forall r,
  typed_record r = true ->
  exists score checks, validate_extraction r = Ok (score, checks)
    /\ checks = combine check_names (spec_checks r)
    /\ (forall y, lookup "year" r = Some (PStr y) -> parse_int y = None ->
          nth 3 checks ("", true) = ("has_year", false)).
Proof.
  intros r H. rewrite (validate_extraction_typed r H). do 2 eexists.
  split; [reflexivity|]. split; [reflexivity|].
  intros y Hy Hp. unfold spec_checks. rewrite Hy. simpl str_of.
  unfold year_in_range. rewrite Hp. reflexivity.
Qed.

Lemma validate_extraction_completes_on_typed_witness :
  typed_record record_unparseable_year = true
  /\ lookup "year" record_unparseable_year = Some (PStr "circa 2020")
  /\ parse_int "circa 2020" = None
  /\ exists score checks,
       validate_extraction record_unparseable_year = Ok (score, checks)
       /\ checks = combine check_names (spec_checks record_unparseable_year)
       /\ nth 3 checks ("", true) = ("has_year", false).
Proof.
  assert (H : typed_record record_unparseable_year = true) by reflexivity.
  assert (Hy : lookup "year" record_unparseable_year = Some (PStr "circa 2020"))
    by reflexivity.
  assert (Hp : parse_int "circa 2020" = None) by reflexivity.
  split; [exact H|]. split; [exact Hy|]. split; [exact Hp|].
  destruct (validate_extraction_completes_on_typed _ H) as (score & checks & H1 & H2 & H3).
  exists score, checks. split; [exact H1|]. split; [exact H2|]. exact (H3 _ Hy Hp).
Defined.

(** C8: after any sequence of ingestions, the documents recorded for an
    (entity, condition) pair form a duplicate-free list holding exactly the
    identifiers of the documents that touched the pair, however often each
    did, while the entity's total mentions are the number of its occurrences
    over all ingested results. *)
Theorem ingestion_document_sets : forall calls k d,
  let s := run calls in
  NoDup (papers_of s k d)
  /\ (forall doc, In doc (papers_of s k d) <->
        exists t pr, In (t, pr) calls /\ doc_id pr = doc /\ touches pr k d = true)
  /\ mentions_of s k = list_sum (map (fun c => occurrences (snd c) k) calls).
Proof.
  intros calls k d s. unfold s. rewrite run_fold.
  assert (H0 : NoDup (papers_of empty_aggregator k d)) by constructor.
  destruct (papers_mentions_fold calls empty_aggregator k d H0) as (Hnd & Hin & Hm).
  split; [exact Hnd|]. split; [|exact Hm].
  intros doc. rewrite Hin. split; [intros [[]|Hx]; exact Hx | intros Hx; right; exact Hx].
Qed.

(** C9: [get_biomarker_details] returns the aggregator unchanged, and
    returns no details exactly when the normalised name has no entry. *)
Theorem get_biomarker_details_frame : forall s name,
  fst (get_biomarker_details s name) = s
  /\ (snd (get_biomarker_details s name) = None
      <-> lookup (normalize_biomarker_name name) s = None).
Proof.
  intros s name. unfold get_biomarker_details.
  destruct (lookup (normalize_biomarker_name name) s) as [bd|] eqn:E.
  - destruct (dd_getitem default_bio_data (normalize_biomarker_name name) s)
      as [s1 bd1] eqn:Hdd. simpl.
    unfold dd_getitem in Hdd. rewrite E in Hdd. injection Hdd as <- _.
    split; [reflexivity|split; discriminate].
  - simpl. tauto.
Qed.

(** C10: in any run, a result without a ["filename"] key is recorded under
    the document identifier "unknown" for every (entity, condition) pair it
    touches, and each pair's document list holds "unknown" at most once, so
    all such results count as one document; when no result has a filename,
    a pair's list is ["unknown"] if some result touched it and empty
    otherwise. *)
Theorem missing_filename_is_unknown : forall calls k d,
  let docs := papers_of (run calls) k d in
  (forall t pr, In (t, pr) calls -> pr_filename pr = None ->
     touches pr k d = true -> In "unknown" docs)
  /\ count_occ string_dec docs "unknown" <= 1
  /\ ((forall c, In c calls -> pr_filename (snd c) = None) ->
      docs = if existsb (fun c => touches (snd c) k d) calls then ["unknown"] else []).
Proof.
  intros calls k d docs. unfold docs. rewrite run_fold.
  assert (H0 : NoDup (papers_of empty_aggregator k d)) by constructor.
  destruct (papers_mentions_fold calls empty_aggregator k d H0) as (Hnd & Hin & _).
  split; [|split].
  - intros t pr Hc Hf Ht. apply Hin. right. exists t, pr.
    split; [exact Hc|]. split; [|exact Ht]. unfold doc_id. rewrite Hf. reflexivity.
  - apply (NoDup_count_occ string_dec). exact Hnd.
  - intros H. rewrite (papers_fold_no_filename calls _ k d H). reflexivity.
Qed.

(* ------------------------------------------------------------------ *)
(** ** Further properties of the code *)

(** X1: When no page segment after the first one is empty, joining the chunks
    returned by [chunk_text] with the page marker gives back the text: the
    whole text when it fits in [max_chars], and otherwise the text without a
    leading page marker (which the split discards). *)
Theorem chunk_text_join : forall max_chars text,
  (forall p, In p (tl (py_split page_marker text)) -> p <> "") ->
  py_join page_marker (chunk_text max_chars text) =
  if Nat.leb (String.length text) max_chars then text else drop_leading_marker text.
Proof.
  intros m text Hne. unfold chunk_text.
  destruct (Nat.leb (String.length text) m) eqn:L; [reflexivity|].
  assert (Hrt := py_split_join page_marker text ltac:(discriminate)).
  destruct (py_split page_marker text) as [|p1 ps] eqn:Ep.
  { exfalso. exact (split_go_nonempty _ _ _ Ep). }
  simpl in Hne. assert (Hps : Forall (fun p => p <> "") ps) by (apply Forall_forall; exact Hne).
  cbn [fold_left]. unfold chunk_step at 2. simpl. rewrite ?andb_false_r.
  destruct (String.eqb p1 "") eqn:E1.
  - apply String.eqb_eq in E1. subst p1.
    destruct ps as [|p2 ps].
    { simpl in Hrt. subst text. discriminate. }
    apply Forall_cons_iff in Hps as [Hp2 Hps'].
    cbn [fold_left]. unfold chunk_step at 2. simpl. rewrite ?andb_false_r.
    pose proof (chunk_fold_join m ps [] p2 Hp2 Hps') as J.
    destruct (fold_left (chunk_step m) ps ([], p2)) as [ch cur'].
    destruct J as [J1 J2].
    replace (negb (String.eqb cur' "")) with true
      by (symmetry; apply negb_true_iff, String.eqb_neq; exact J1).
    rewrite J2. simpl app.
    rewrite py_join_cons_ne in Hrt by discriminate. simpl in Hrt.
    unfold drop_leading_marker.
    rewrite <- Hrt.
    replace (strip_prefix page_marker (page_marker ++ py_join page_marker (p2 :: ps)))
      with (Some (py_join page_marker (p2 :: ps))); [reflexivity|].
    symmetry. apply strip_prefix_app. reflexivity.
  - apply String.eqb_neq in E1.
    pose proof (chunk_fold_join m ps [] p1 E1 Hps) as J.
    destruct (fold_left (chunk_step m) ps ([], p1)) as [ch cur'].
    destruct J as [J1 J2].
    replace (negb (String.eqb cur' "")) with true
      by (symmetry; apply negb_true_iff, String.eqb_neq; exact J1).
    rewrite J2. simpl app. rewrite Hrt.
    unfold drop_leading_marker.
    destruct (strip_prefix page_marker text) as [r|] eqn:Es; [|reflexivity].
    exfalso. apply strip_prefix_app in Es.
    destruct (py_split_marker_app r) as [qs Eq].
    assert (Et : text = (page_marker ++ r)%string) by exact Es.
    rewrite Et, Eq in Ep.
    injection Ep as <- _. apply E1. reflexivity.
Qed.

Lemma chunk_text_join_witness :
  (forall p, In p (tl (py_split page_marker two_page_text)) -> p <> "")
  /\ py_join page_marker (chunk_text 10 two_page_text) = drop_leading_marker two_page_text.
Proof.
  assert (H : forall p, In p (tl (py_split page_marker two_page_text)) -> p <> "")
    by (vm_compute; intros p [<-|[<-|[]]]; discriminate).
  split; [exact H|]. rewrite (chunk_text_join 10 two_page_text H). reflexivity.
Defined.

(** X2: For a text longer than [max_chars], every chunk is non-empty and is
    either at most [max_chars + 8] characters long or one whole page segment
    (the re-inserted marker is not counted against the limit); a chunk of
    exactly [max_chars + 8] characters that is not a page segment occurs. *)
Theorem chunk_text_chunk_sizes :
  (forall m text c, m < String.length text -> In c (chunk_text m text) ->
     c <> "" /\ (String.length c <= m + 8 \/ In c (py_split page_marker text)))
  /\ exists m text c, In c (chunk_text m text) /\ String.length c = m + 8
                      /\ ~ In c (py_split page_marker text).
Proof.
  split.
  - intros m text c Hlt Hc. unfold chunk_text in Hc.
    replace (Nat.leb (String.length text) m) with false in Hc
      by (symmetry; apply Nat.leb_gt; exact Hlt).
    pose proof (chunk_fold_bound m (py_split page_marker text) (py_split page_marker text)
                  [] "" (fun p H => H) (fun c H => match H with end)
                  (or_introl eq_refl)) as B.
    destruct (fold_left (chunk_step m) (py_split page_marker text) ([], "")) as [ch cur'].
    destruct B as [B1 B2].
    destruct (negb (String.eqb cur' "")) eqn:E.
    + apply in_app_iff in Hc as [Hc|[<-|[]]]; [apply B1, Hc|].
      apply negb_true_iff, String.eqb_neq in E.
      destruct B2 as [B2|B2]; [contradiction|]. split; assumption.
    + apply B1, Hc.
  - exists 10, "aaaaa--- Pagebbbbb", "aaaaa--- Pagebbbbb".
    vm_compute. split; [left; reflexivity|]. split; [reflexivity|].
    intros [H|[H|[]]]; discriminate.
Qed.

(** X3: [chunk_text] returns no chunk exactly when the text is longer than
    [max_chars] and every page segment is empty, i.e. the text consists of
    page markers only. *)
Theorem chunk_text_empty_iff : forall max_chars text,
  chunk_text max_chars text = [] <->
  max_chars < String.length text /\ Forall (fun p => p = "") (py_split page_marker text).
Proof. intros m text. apply chunk_text_nil_iff. Qed.

(** X4: Whatever the page texts, the text assembled by [extract_text_from_pdf]
    has at least one chunk, so [chunks[0]] in the summarisers does not fail
    on it. *)
Theorem extracted_text_has_first_chunk : forall max_chars texts,
  chunk_text max_chars (extract_full_text texts) <> [].
Proof.
  intros m texts Hc.
  apply chunk_text_nil_iff in Hc as [Hlt Hall].
  unfold extract_full_text in *.
  destruct (text_parts_from 0 texts) as [|p ps] eqn:E.
  - simpl in Hlt. lia.
  - destruct (text_parts_from_shape texts 0 p) as [y ->]; [rewrite E; left; reflexivity|].
    rewrite py_join_cons in Hall.
    rewrite <- str_app_assoc in Hall.
    pose proof (py_split_marker_space (y ++ match ps with
        | [] => "" | _ :: _ => (newline ++ newline) ++ py_join (newline ++ newline) ps
        end)%string) as Hex.
    destruct (proj1 (Exists_exists _ _) Hex) as [q [Hq Hne]].
    exact (Hne (proj1 (Forall_forall _ _) Hall q Hq)).
Qed.

(** X5: The text assembled by [extract_text_from_pdf] is empty exactly when
    every page text is blank (whitespace only). *)
Theorem extract_full_text_empty_iff : forall texts,
  extract_full_text texts = "" <-> Forall (fun t => py_strip t = "") texts.
Proof.
  intros texts. rewrite <- (text_parts_from_nil_iff texts 0). unfold extract_full_text.
  destruct (text_parts_from 0 texts) as [|p ps] eqn:E; [split; reflexivity|].
  split; [|discriminate]. intros H.
  destruct (text_parts_from_shape texts 0 p) as [y ->]; [rewrite E; left; reflexivity|].
  rewrite py_join_cons in H. discriminate.
Qed.

(** X6: A reply made of whitespace, a json code fence, a body not starting with
    a backquote, a closing fence and whitespace is cleaned to the stripped
    body. *)
Theorem clean_response_fenced : forall ws1 body ws2,
  all_chars is_py_space ws1 = true -> all_chars is_py_space ws2 = true ->
  String.get 0 body <> Some "`"%char ->
  clean_response (ws1 ++ "```json" ++ body ++ "```" ++ ws2)%string = py_strip body.
Proof.
  intros ws1 body ws2 H1 H2 Hb. unfold clean_response.
  rewrite py_strip_fenced by assumption.
  replace (String.prefix "```json" ("```json" ++ body ++ "```")) with true
    by (symmetry; apply prefix_app; eexists; reflexivity).
  change 7 with (String.length "```json"). rewrite py_slice_from_app.
  destruct body as [|c b].
  - reflexivity.
  - replace (String.prefix fence (String c b ++ "```")) with false.
    + unfold fence. change 3 with (String.length "```").
      rewrite ends_with_app, py_slice_drop_last_app. reflexivity.
    + unfold fence. cbn [String.prefix append].
      destruct (ascii_dec "`" c) as [<-|Hne]; [|reflexivity].
      simpl in Hb. contradiction.
Qed.

Lemma clean_response_fenced_witness :
  clean_response (fenced_reply_ws1 ++ "```json" ++ fenced_reply_body ++ "```" ++ newline)%string = "{}".
Proof.
  rewrite (clean_response_fenced fenced_reply_ws1 fenced_reply_body newline);
    [reflexivity|reflexivity|reflexivity|discriminate].
Defined.

(** X7: A reply whose stripped form neither starts nor ends with a code fence is
    cleaned to its stripped form. *)
Theorem clean_response_unfenced : forall s,
  String.prefix fence (py_strip s) = false -> ends_with fence (py_strip s) = false ->
  clean_response s = py_strip s.
Proof.
  intros s Hp He. unfold clean_response.
  destruct (String.prefix "```json" (py_strip s)) eqn:Ej.
  - apply prefix_json_fence in Ej. congruence.
  - rewrite Hp, He. apply py_strip_idem.
Qed.

Lemma clean_response_unfenced_witness :
  clean_response (" " ++ fenced_reply_body ++ newline)%string = "{}".
Proof.
  rewrite clean_response_unfenced; reflexivity.
Defined.

(** X8: for a year value that is [None], a bool, an int, a string, a list
    or a dict (any JSON value except a float, which the model leaves out),
    [_validate_year] does not raise: it returns whether [int(year_str)]
    succeeds with a value in [1900, 2026]; its checks for falsy values and
    ['Not found'] do not change the result. *)
Theorem validate_year_is_range_check : forall v,
  validate_year v =
  Ok (match py_int v with
      | Ok year => Z.leb 1900 year && Z.leb year 2026
      | Raise _ => false
      end).
Proof.
  intros v. unfold validate_year.
  destruct (negb (truthy v) || py_eq_str v "Not found") eqn:E.
  - f_equal. apply orb_true_iff in E as [E|E].
    + apply negb_true_iff in E.
      destruct v as [| [] | z | s | [|x l] | [|x d]]; simpl in E |- *; try discriminate;
        try reflexivity.
      * apply negb_false_iff, Z.eqb_eq in E. subst z. reflexivity.
      * apply negb_false_iff, String.eqb_eq in E. subst s. reflexivity.
    + destruct v; simpl in E; try discriminate.
      apply String.eqb_eq in E. subst. reflexivity.
  - pose proof (py_int_no_overflow v) as Hno.
    destruct (py_int v) as [z|[]]; reflexivity || contradiction.
Qed.

(** X9: When [save_results_to_csv] completes, each result whose ['biomarkers']
    value was a list now holds its [json.dumps] string there and
    ['num_biomarkers'] holds the list length; for every other result the
    ['biomarkers'] value is unchanged and ['num_biomarkers'] is 0; the rows
    written are the 21 fields of the mutated results. *)
Theorem save_results_to_csv_serialises_biomarkers : forall rs rs' rows,
  save_results_to_csv rs = Ok (rs', rows) ->
  Forall2 (fun r r' =>
             lookup "biomarkers" r' = saved_biomarkers r /\
             lookup "num_biomarkers" r' = Some (PInt (saved_count r))) rs rs'
  /\ rows = map csv_row rs'.
Proof.
  intros rs rs' rows H. apply save_results_to_csv_saved_as in H as [H1 H2].
  split; [|exact H2].
  eapply Forall2_impl; [|exact H1]. intros r r' [_ [Hb Hn]]. split; assumption.
Qed.

Lemma save_results_to_csv_serialises_biomarkers_witness :
  save_results_to_csv one_success = Ok (one_success_saved, map csv_row one_success_saved)
  /\ Forall2 (fun r r' =>
                lookup "biomarkers" r' = saved_biomarkers r /\
                lookup "num_biomarkers" r' = Some (PInt (saved_count r)))
       one_success one_success_saved.
Proof.
  assert (H : save_results_to_csv one_success
              = Ok (one_success_saved, map csv_row one_success_saved)) by (vm_compute; reflexivity).
  split; [exact H|]. exact (proj1 (save_results_to_csv_serialises_biomarkers _ _ _ H)).
Defined.

(** X10: [main] computes the metrics on the results mutated by
    [save_results_to_csv], so [total_biomarkers_extracted] counts characters
    of JSON strings: it is at least the count on the unmodified results plus
    2 for every successful result whose biomarkers were a list. *)
Theorem total_biomarkers_after_save : forall rs rs' rows n,
  save_results_to_csv rs = Ok (rs', rows) -> total_biomarkers rs = Ok n ->
  exists n', total_biomarkers rs' = Ok n' /\ n + 2 * length (filter list_success rs) <= n'.
Proof.
  intros rs rs' rows n H Hn. apply save_results_to_csv_saved_as in H as [H _].
  eapply total_biomarkers_saved; eassumption.
Qed.

Lemma total_biomarkers_after_save_witness :
  save_results_to_csv one_success = Ok (one_success_saved, map csv_row one_success_saved)
  /\ total_biomarkers one_success = Ok 0
  /\ total_biomarkers one_success_saved = Ok 2
  /\ exists n', total_biomarkers one_success_saved = Ok n'
               /\ 0 + 2 * length (filter list_success one_success) <= n'.
Proof.
  assert (H1 : save_results_to_csv one_success
               = Ok (one_success_saved, map csv_row one_success_saved)) by (vm_compute; reflexivity).
  assert (H2 : total_biomarkers one_success = Ok 0) by reflexivity.
  split; [exact H1|]. split; [exact H2|]. split; [vm_compute; reflexivity|].
  exact (total_biomarkers_after_save _ _ _ _ H1 H2).
Defined.

(** X11: After any sequence of ingestions, [top_biomarkers] is the first ten
    entries of a list sorted by decreasing mention count that holds each
    entity once, with its number of occurrences over all ingested results,
    and exactly the entities with at least one occurrence; entities with
    equal counts keep their insertion order; [total_unique_biomarkers] is
    the length of that list. *)
Theorem top_biomarkers_ranking : forall calls,
  let s := run calls in
  exists L,
    top_biomarkers (get_summary s) = firstn 10 L
    /\ total_unique_biomarkers (get_summary s) = length L
    /\ StronglySorted (desc snd) L
    /\ NoDup (map fst L)
    /\ (forall k n, In (k, n) L <->
          n = list_sum (map (fun c => occurrences (snd c) k) calls) /\ 0 < n)
    /\ (forall c, filter (with_key snd c) L = filter (with_key snd c) (mention_pairs s)).
Proof.
  intros calls s. exists (sort_desc snd (mention_pairs s)).
  destruct (mentions_inv_run calls) as [Hnd Hpos]. fold s in Hnd, Hpos.
  assert (Hperm := sort_desc_perm snd (mention_pairs s)).
  split; [reflexivity|]. split.
  { rewrite (Permutation_length Hperm). unfold mention_pairs. rewrite length_map. reflexivity. }
  split; [apply sort_desc_sorted|]. split.
  { apply (Permutation_NoDup (Permutation_map fst (Permutation_sym Hperm))).
    unfold mention_pairs. rewrite map_map. exact Hnd. }
  split; [|intros c; apply sort_desc_stable].
  intros k n. rewrite <- mentions_total. fold s.
  split.
  - intros Hin. apply (Permutation_in _ Hperm) in Hin.
    unfold mention_pairs in Hin. apply in_map_iff in Hin as [[k' bd] [Heq Hin]].
    injection Heq as -> <-.
    unfold mentions_of. rewrite (lookup_NoDup_In s k bd Hnd Hin).
    split; [reflexivity|exact (Hpos _ _ Hin)].
  - intros [-> Hn]. apply (Permutation_in _ (Permutation_sym Hperm)).
    unfold mentions_of in *. destruct (lookup k s) as [bd|] eqn:Hl; [|lia].
    unfold mention_pairs. apply in_map_iff. exists (k, bd).
    split; [reflexivity|exact (lookup_In _ _ _ Hl)].
Qed.

(** X12: After any sequence of ingestions, [get_biomarker_details] reports as
    [first_seen] and [last_seen] the timestamps of the first and the last
    call whose result names the entity, and as [total_mentions] its number
    of occurrences; when it returns [None], no call named the entity. *)
Theorem details_seen_timestamps : forall calls name,
  let k := normalize_biomarker_name name in
  match snd (get_biomarker_details (run calls) name) with
  | Some dt =>
    dt_first_seen dt = first_mention calls k
    /\ dt_last_seen dt = last_mention calls k
    /\ dt_total_mentions dt = list_sum (map (fun c => occurrences (snd c) k) calls)
  | None => first_mention calls k = None
  end.
Proof.
  intros calls name k.
  destruct (seen_fold calls empty_aggregator k) as [H1 H2].
  rewrite <- run_fold in H1, H2.
  pose proof (mentions_total calls k) as Hm.
  unfold first_seen_of, last_seen_of, mentions_of in *.
  unfold get_biomarker_details. fold k.
  destruct (lookup k (run calls)) as [bd|] eqn:Hl.
  - unfold dd_getitem. rewrite Hl. simpl.
    simpl in H1, H2. rewrite H1, H2, Hm.
    split; [reflexivity|]. split; [|reflexivity].
    destruct (last_mention calls k); reflexivity.
  - simpl in H1 |- *. symmetry. exact H1.
Qed.

(** X13: For [min_papers <= 1], [total_biomarker_disease_associations] equals the
    number of entries of [find_high_confidence_associations(min_papers)]:
    every stored (entity, condition) pair has at least one document. *)
Theorem total_associations_count : forall calls min_papers,
  (min_papers <= 1)%Z ->
  total_biomarker_disease_associations (get_summary (run calls))
  = length (find_high_confidence_associations (run calls) min_papers).
Proof.
  intros calls min_papers Hmin. unfold find_high_confidence_associations.
  rewrite (Permutation_length (sort_desc_perm hc_paper_count _)).
  unfold collect_high_confidence. rewrite collect_length; [reflexivity| |exact Hmin].
  apply papers_inv_run.
Qed.

Lemma total_associations_count_witness :
  (0 <= 1)%Z
  /\ total_biomarker_disease_associations (get_summary (run ranking_calls))
     = length (find_high_confidence_associations (run ranking_calls) 0).
Proof.
  assert (H : (0 <= 1)%Z) by lia.
  split; [exact H|]. exact (total_associations_count ranking_calls 0 H).
Defined.
